(** * The vmath [mat3] class and the geometric [line] primitive

    A shallow embedding of [cocos/core/vmath/mat3.ts] and
    [cocos/3d/geom-utils/line.ts].

    - A JavaScript [number] is modelled by a real number where the
      routines move numbers around, or where both sides of a statement
      perform the same operations: there the development is about the
      exact-arithmetic content of the routines.  Where rounding, overflow
      and [NaN] decide what the code does (the determinant test of
      [invert] and [normalFromMat4], the product of a matrix and its
      inverse), the routines are embedded a second time over binary64
      numbers, in the module [Binary64].
    - Objects that the two classes create or write to ([mat3], [vec3],
      [line], arrays) live in a heap indexed by references.  Every static
      method takes references and runs in a small state monad over the
      heap, so that [out === a], in-place updates and allocation by [new]
      are what they are in the source.  A field assignment of the source
      is one heap write, in source order.
    - Objects of other classes that a [mat3] method only reads (a [mat4],
      a [mat2d], a quaternion, a 2D offset) are passed as records: they
      cannot be the [mat3] written to. *)

From Stdlib Require Import Reals Lra String.
From Corelib Require PrimFloat.
From stdpp Require Import base option gmap.

Local Open Scope R_scope.

(** ** Numbers *)

(** [!x] on a number: true exactly for zero (in JavaScript also for [NaN],
    which no real number is). *)
Definition falsy (x : R) : bool := if Req_dec_T x 0 then true else false.

(** [a === b], [a < b] and [a <= b] on numbers. *)
Definition num_eq (a b : R) : bool := if Req_dec_T a b then true else false.
Definition num_lt (a b : R) : bool := if Rlt_dec a b then true else false.
Definition num_le (a b : R) : bool := if Rle_dec a b then true else false.

(** ** Objects *)

(** Modelled from the spec: the class [vec3] of [./vec3], which is not part
    of the sources; "a 3D vector of ... coordinates (x, y, z)". *)
Module Vec3.
Record t : Type := mk { x : R; y : R; z : R }.
Definition set_x (v : R) (a : t) : t := mk v (y a) (z a).
Definition set_y (v : R) (a : t) : t := mk (x a) v (z a).
Definition set_z (v : R) (a : t) : t := mk (x a) (y a) v.
End Vec3.

(** The argument [v] of [translate], [scale], [fromTranslation] and
    [fromScaling]: only [v.x] and [v.y] are read. *)
Module Vec2.
Record t : Type := mk { x : R; y : R }.
End Vec2.

(** The argument [q] of [fromQuat]. *)
Module Quat.
Record t : Type := mk { x : R; y : R; z : R; w : R }.
End Quat.

(** The argument [a] of [fromMat2d]. *)
Module Mat2d.
Record t : Type := mk { m00 : R; m01 : R; m02 : R; m03 : R; m04 : R; m05 : R }.
End Mat2d.

(** The argument [a] of [fromMat4] and [normalFromMat4]. *)
Module Mat4.
Record t : Type := mk {
  m00 : R; m01 : R; m02 : R; m03 : R;
  m04 : R; m05 : R; m06 : R; m07 : R;
  m08 : R; m09 : R; m10 : R; m11 : R;
  m12 : R; m13 : R; m14 : R; m15 : R
}.
End Mat4.

(** The nine public fields of [class mat3], column-major. *)
Record mat3 : Type := mk_mat3 {
  m00 : R; m01 : R; m02 : R;
  m03 : R; m04 : R; m05 : R;
  m06 : R; m07 : R; m08 : R
}.

Definition set_m00 (v : R) (a : mat3) : mat3 :=
  mk_mat3 v (m01 a) (m02 a) (m03 a) (m04 a) (m05 a) (m06 a) (m07 a) (m08 a).
Definition set_m01 (v : R) (a : mat3) : mat3 :=
  mk_mat3 (m00 a) v (m02 a) (m03 a) (m04 a) (m05 a) (m06 a) (m07 a) (m08 a).
Definition set_m02 (v : R) (a : mat3) : mat3 :=
  mk_mat3 (m00 a) (m01 a) v (m03 a) (m04 a) (m05 a) (m06 a) (m07 a) (m08 a).
Definition set_m03 (v : R) (a : mat3) : mat3 :=
  mk_mat3 (m00 a) (m01 a) (m02 a) v (m04 a) (m05 a) (m06 a) (m07 a) (m08 a).
Definition set_m04 (v : R) (a : mat3) : mat3 :=
  mk_mat3 (m00 a) (m01 a) (m02 a) (m03 a) v (m05 a) (m06 a) (m07 a) (m08 a).
Definition set_m05 (v : R) (a : mat3) : mat3 :=
  mk_mat3 (m00 a) (m01 a) (m02 a) (m03 a) (m04 a) v (m06 a) (m07 a) (m08 a).
Definition set_m06 (v : R) (a : mat3) : mat3 :=
  mk_mat3 (m00 a) (m01 a) (m02 a) (m03 a) (m04 a) (m05 a) v (m07 a) (m08 a).
Definition set_m07 (v : R) (a : mat3) : mat3 :=
  mk_mat3 (m00 a) (m01 a) (m02 a) (m03 a) (m04 a) (m05 a) (m06 a) v (m08 a).
Definition set_m08 (v : R) (a : mat3) : mat3 :=
  mk_mat3 (m00 a) (m01 a) (m02 a) (m03 a) (m04 a) (m05 a) (m06 a) (m07 a) v.

(** References are heap addresses; [===] on objects is equality of
    references. *)
Abbreviation ref := positive.

(** [class line]: the private [_type] tag and the two public fields, which
    hold references to [vec3] objects. *)
Record line : Type := mk_line { _type : R; s : ref; e : ref }.

(** A JavaScript array of numbers, possibly with holes. *)
Abbreviation jsarray := (gmap nat R).

Inductive obj : Type :=
| OMat3 (m : mat3)
| OVec3 (v : Vec3.t)
| OLine (l : line)
| OArray (xs : jsarray).

Abbreviation heap := (gmap ref obj).

(** What is not part of the sources and is left open: the
    constants [EPSILON] of [./utils] and [enums.SHAPE_LINE] of [./enums],
    the conversion of a number to a string in a template literal, and the
    values that [vec3.sqrMag], [vec3.cross] and [vec3.normalize] compute. *)
Class Externals : Type := {
  EPSILON : R;
  SHAPE_LINE : R;
  number_to_string : R -> string;
  sqrMag_of : Vec3.t -> R;
  cross_of : Vec3.t -> Vec3.t -> Vec3.t;
  normalize_of : Vec3.t -> Vec3.t
}.

(** ** The heap monad

    [None] is a run-time [TypeError]: a property access through a
    reference that holds no object of the expected class. *)
Definition M (A : Type) : Type := heap -> option (A * heap).

Definition ret {A} (a : A) : M A := fun h => Some (a, h).

Definition bind {A B} (c : M A) (k : A -> M B) : M B :=
  fun h => match c h with
           | Some (a, h') => k a h'
           | None => None
           end.

Declare Scope heap_scope.
Delimit Scope heap_scope with heap.
Notation "x <- c ;; k" := (bind c (fun x => k))
  (at level 100, c at next level, right associativity) : heap_scope.
Notation "c ;; k" := (bind c (fun _ => k))
  (at level 100, right associativity) : heap_scope.
Local Open Scope heap_scope.

(** [new C(...)]: the object is stored at an unused address. *)
Definition alloc (o : obj) : M ref :=
  fun h => let r := fresh (dom h) in Some (r, <[r := o]> h).

(** [r.f] for a [mat3] field [f]. *)
Definition get (r : ref) (f : mat3 -> R) : M R :=
  fun h => match h !! r with
           | Some (OMat3 m) => Some (f m, h)
           | _ => None
           end.

(** [r.f = v] for a [mat3] field [f], given by its setter. *)
Definition put (r : ref) (setf : R -> mat3 -> mat3) (v : R) : M unit :=
  fun h => match h !! r with
           | Some (OMat3 m) => Some (tt, <[r := OMat3 (setf v m)]> h)
           | _ => None
           end.

(** [r.f = c] where the right-hand side reads the heap. *)
Definition assign (r : ref) (setf : R -> mat3 -> mat3) (c : M R) : M unit :=
  v <- c;; put r setf v.

(** The same for the fields of a [vec3]. *)
Definition getv (r : ref) (f : Vec3.t -> R) : M R :=
  fun h => match h !! r with
           | Some (OVec3 v) => Some (f v, h)
           | _ => None
           end.

Definition putv (r : ref) (setf : R -> Vec3.t -> Vec3.t) (v : R) : M unit :=
  fun h => match h !! r with
           | Some (OVec3 a) => Some (tt, <[r := OVec3 (setf v a)]> h)
           | _ => None
           end.

(** [r.s] and [r.e] for a [line]. *)
Definition getl (r : ref) (f : line -> ref) : M ref :=
  fun h => match h !! r with
           | Some (OLine l) => Some (f l, h)
           | _ => None
           end.

(** [r[i] = v] on an array: a write past the end extends the array. *)
Definition puta (r : ref) (i : nat) (v : R) : M unit :=
  fun h => match h !! r with
           | Some (OArray xs) => Some (tt, <[r := OArray (<[i := v]> xs)]> h)
           | _ => None
           end.

(** ** The [vec3] helpers *)

(** Modelled from the spec: [vec3.create] of [./vec3], which is not part of
    the sources.  A line is "constructed with explicit or default
    coordinates": a new [vec3] with the three coordinates given. *)
Definition vec3_create (x y z : R) : M ref :=
  alloc (OVec3 (Vec3.mk x y z)).

(** Modelled from the spec: [vec3.copy] of [./vec3], which is not part of
    the sources.  "Copy/clone produce value-equal ... instances": the three
    coordinates of [a] are written to [out], which is returned. *)
Definition vec3_copy (out a : ref) : M ref :=
  x <- getv a Vec3.x;; putv out Vec3.set_x x;;
  y <- getv a Vec3.y;; putv out Vec3.set_y y;;
  z <- getv a Vec3.z;; putv out Vec3.set_z z;;
  ret out.

(** Modelled from the spec: [vec3.distance] of [./vec3], which is not part
    of the sources.  The magnitude of a line is "distance(L.start, L.end)",
    the Euclidean distance of the two points. *)
Definition vec3_distance (a b : ref) : M R :=
  bx <- getv b Vec3.x;; ax <- getv a Vec3.x;;
  let x := bx - ax in
  by_ <- getv b Vec3.y;; ay <- getv a Vec3.y;;
  let y := by_ - ay in
  bz <- getv b Vec3.z;; az <- getv a Vec3.z;;
  let z := bz - az in
  ret (sqrt (x * x + y * y + z * z)).

(** [vec3.sqrMag], [vec3.cross] and [vec3.normalize] follow the convention
    of the library: the result is a function of the operands, is written to
    [out], and [out] is returned.  What they compute is left open. *)
Definition readv (r : ref) : M Vec3.t :=
  x <- getv r Vec3.x;; y <- getv r Vec3.y;; z <- getv r Vec3.z;;
  ret (Vec3.mk x y z).

Definition writev (r : ref) (v : Vec3.t) : M unit :=
  putv r Vec3.set_x (Vec3.x v);;
  putv r Vec3.set_y (Vec3.y v);;
  putv r Vec3.set_z (Vec3.z v).

Definition vec3_sqrMag `{Externals} (a : ref) : M R :=
  va <- readv a;; ret (sqrMag_of va).

Definition vec3_cross `{Externals} (out a b : ref) : M ref :=
  va <- readv a;; vb <- readv b;; writev out (cross_of va vb);; ret out.

Definition vec3_normalize `{Externals} (out a : ref) : M ref :=
  va <- readv a;; writev out (normalize_of va);; ret out.

(** ** [class mat3] *)
Module Mat3.

(** The constructor, with its default parameters: an omitted argument is
    [None]. *)
Definition new (m00 m01 m02 m03 m04 m05 m06 m07 m08 : option R) : M ref :=
  alloc (OMat3 (mk_mat3
    (default 1 m00) (default 0 m01) (default 0 m02)
    (default 0 m03) (default 1 m04) (default 0 m05)
    (default 0 m06) (default 0 m07) (default 1 m08))).

Definition create (m00 m01 m02 m03 m04 m05 m06 m07 m08 : option R) : M ref :=
  let m00 := default 1 m00 in let m01 := default 0 m01 in
  let m02 := default 0 m02 in let m03 := default 0 m03 in
  let m04 := default 1 m04 in let m05 := default 0 m05 in
  let m06 := default 0 m06 in let m07 := default 0 m07 in
  let m08 := default 1 m08 in
  new (Some m00) (Some m01) (Some m02) (Some m03) (Some m04)
      (Some m05) (Some m06) (Some m07) (Some m08).

Definition clone (a : ref) : M ref :=
  v0 <- get a m00;; v1 <- get a m01;; v2 <- get a m02;;
  v3 <- get a m03;; v4 <- get a m04;; v5 <- get a m05;;
  v6 <- get a m06;; v7 <- get a m07;; v8 <- get a m08;;
  new (Some v0) (Some v1) (Some v2) (Some v3) (Some v4)
      (Some v5) (Some v6) (Some v7) (Some v8).

Definition copy (out a : ref) : M ref :=
  assign out set_m00 (get a m00);;
  assign out set_m01 (get a m01);;
  assign out set_m02 (get a m02);;
  assign out set_m03 (get a m03);;
  assign out set_m04 (get a m04);;
  assign out set_m05 (get a m05);;
  assign out set_m06 (get a m06);;
  assign out set_m07 (get a m07);;
  assign out set_m08 (get a m08);;
  ret out.

Definition set (out : ref) (m00 m01 m02 m10 m11 m12 m20 m21 m22 : R) : M ref :=
  put out set_m00 m00;;
  put out set_m01 m01;;
  put out set_m02 m02;;
  put out set_m03 m10;;
  put out set_m04 m11;;
  put out set_m05 m12;;
  put out set_m06 m20;;
  put out set_m07 m21;;
  put out set_m08 m22;;
  ret out.

Definition identity (out : ref) : M ref :=
  put out set_m00 1;;
  put out set_m01 0;;
  put out set_m02 0;;
  put out set_m03 0;;
  put out set_m04 1;;
  put out set_m05 0;;
  put out set_m06 0;;
  put out set_m07 0;;
  put out set_m08 1;;
  ret out.

(** The closure of [fromViewUp]: three [vec3] objects allocated once,
    when the class is initialised. *)
Record view_up_env : Type :=
  mk_env { default_up : ref; scratch_x : ref; scratch_y : ref }.

Definition fromViewUp_init : M view_up_env :=
  default_up <- vec3_create 0 1 0;;
  x <- vec3_create 0 0 0;;
  y <- vec3_create 0 0 0;;
  ret (mk_env default_up x y).

Definition fromViewUp `{Externals} (env : view_up_env)
    (out view : ref) (up : option ref) : M ref :=
  let x := scratch_x env in
  let y := scratch_y env in
  sq <- vec3_sqrMag view;;
  if num_lt sq (EPSILON * EPSILON) then
    identity out;;
    ret out
  else
    let up := default (default_up env) up in
    c <- vec3_cross x up view;;
    vec3_normalize x c;;
    sq <- vec3_sqrMag x;;
    if num_lt sq (EPSILON * EPSILON) then
      identity out;;
      ret out
    else
      vec3_cross y view x;;
      xx <- getv x Vec3.x;; xy <- getv x Vec3.y;; xz <- getv x Vec3.z;;
      yx <- getv y Vec3.x;; yy <- getv y Vec3.y;; yz <- getv y Vec3.z;;
      vx <- getv view Vec3.x;; vy <- getv view Vec3.y;;
      vz <- getv view Vec3.z;;
      set out xx xy xz yx yy yz vx vy vz;;
      ret out.

Definition transpose (out a : ref) : M ref :=
  (* If we are transposing ourselves we can skip a few steps but have to
     cache some values *)
  if decide (out = a) then
    a01 <- get a m01;; a02 <- get a m02;; a12 <- get a m05;;
    assign out set_m01 (get a m03);;
    assign out set_m02 (get a m06);;
    put out set_m03 a01;;
    assign out set_m05 (get a m07);;
    put out set_m06 a02;;
    put out set_m07 a12;;
    ret out
  else
    assign out set_m00 (get a m00);;
    assign out set_m01 (get a m03);;
    assign out set_m02 (get a m06);;
    assign out set_m03 (get a m01);;
    assign out set_m04 (get a m04);;
    assign out set_m05 (get a m07);;
    assign out set_m06 (get a m02);;
    assign out set_m07 (get a m05);;
    assign out set_m08 (get a m08);;
    ret out.

(** [null] is [None]. *)
Definition invert (out a : ref) : M (option ref) :=
  a00 <- get a m00;;
  a01 <- get a m01;;
  a02 <- get a m02;;
  a10 <- get a m03;;
  a11 <- get a m04;;
  a12 <- get a m05;;
  a20 <- get a m06;;
  a21 <- get a m07;;
  a22 <- get a m08;;

  let b01 := a22 * a11 - a12 * a21 in
  let b11 := (- a22) * a10 + a12 * a20 in
  let b21 := a21 * a10 - a11 * a20 in

  (* Calculate the determinant *)
  let det := a00 * b01 + a01 * b11 + a02 * b21 in

  if falsy det then
    ret None
  else
  let det := 1 / det in

  put out set_m00 (b01 * det);;
  put out set_m01 (((- a22) * a01 + a02 * a21) * det);;
  put out set_m02 ((a12 * a01 - a02 * a11) * det);;
  put out set_m03 (b11 * det);;
  put out set_m04 ((a22 * a00 - a02 * a20) * det);;
  put out set_m05 (((- a12) * a00 + a02 * a10) * det);;
  put out set_m06 (b21 * det);;
  put out set_m07 (((- a21) * a00 + a01 * a20) * det);;
  put out set_m08 ((a11 * a00 - a01 * a10) * det);;
  ret (Some out).

Definition adjoint (out a : ref) : M ref :=
  a00 <- get a m00;;
  a01 <- get a m01;;
  a02 <- get a m02;;
  a10 <- get a m03;;
  a11 <- get a m04;;
  a12 <- get a m05;;
  a20 <- get a m06;;
  a21 <- get a m07;;
  a22 <- get a m08;;

  put out set_m00 (a11 * a22 - a12 * a21);;
  put out set_m01 (a02 * a21 - a01 * a22);;
  put out set_m02 (a01 * a12 - a02 * a11);;
  put out set_m03 (a12 * a20 - a10 * a22);;
  put out set_m04 (a00 * a22 - a02 * a20);;
  put out set_m05 (a02 * a10 - a00 * a12);;
  put out set_m06 (a10 * a21 - a11 * a20);;
  put out set_m07 (a01 * a20 - a00 * a21);;
  put out set_m08 (a00 * a11 - a01 * a10);;
  ret out.

Definition determinant (a : ref) : M R :=
  a00 <- get a m00;;
  a01 <- get a m01;;
  a02 <- get a m02;;
  a10 <- get a m03;;
  a11 <- get a m04;;
  a12 <- get a m05;;
  a20 <- get a m06;;
  a21 <- get a m07;;
  a22 <- get a m08;;

  ret (a00 * (a22 * a11 - a12 * a21)
       + a01 * ((- a22) * a10 + a12 * a20)
       + a02 * (a21 * a10 - a11 * a20)).

Definition multiply (out a b : ref) : M ref :=
  a00 <- get a m00;;
  a01 <- get a m01;;
  a02 <- get a m02;;
  a10 <- get a m03;;
  a11 <- get a m04;;
  a12 <- get a m05;;
  a20 <- get a m06;;
  a21 <- get a m07;;
  a22 <- get a m08;;

  b00 <- get b m00;; b01 <- get b m01;; b02 <- get b m02;;
  b10 <- get b m03;; b11 <- get b m04;; b12 <- get b m05;;
  b20 <- get b m06;; b21 <- get b m07;; b22 <- get b m08;;

  put out set_m00 (b00 * a00 + b01 * a10 + b02 * a20);;
  put out set_m01 (b00 * a01 + b01 * a11 + b02 * a21);;
  put out set_m02 (b00 * a02 + b01 * a12 + b02 * a22);;

  put out set_m03 (b10 * a00 + b11 * a10 + b12 * a20);;
  put out set_m04 (b10 * a01 + b11 * a11 + b12 * a21);;
  put out set_m05 (b10 * a02 + b11 * a12 + b12 * a22);;

  put out set_m06 (b20 * a00 + b21 * a10 + b22 * a20);;
  put out set_m07 (b20 * a01 + b21 * a11 + b22 * a21);;
  put out set_m08 (b20 * a02 + b21 * a12 + b22 * a22);;
  ret out.

(** Alias of [multiply]. *)
Definition mul (out a b : ref) : M ref :=
  multiply out a b.

Definition translate (out a : ref) (v : Vec2.t) : M ref :=
  a00 <- get a m00;;
  a01 <- get a m01;;
  a02 <- get a m02;;
  a10 <- get a m03;;
  a11 <- get a m04;;
  a12 <- get a m05;;
  a20 <- get a m06;;
  a21 <- get a m07;;
  a22 <- get a m08;;
  let x := Vec2.x v in
  let y := Vec2.y v in

  put out set_m00 (a00);;
  put out set_m01 (a01);;
  put out set_m02 (a02);;
  put out set_m03 (a10);;
  put out set_m04 (a11);;
  put out set_m05 (a12);;
  put out set_m06 (x * a00 + y * a10 + a20);;
  put out set_m07 (x * a01 + y * a11 + a21);;
  put out set_m08 (x * a02 + y * a12 + a22);;
  ret out.

Definition rotate (out a : ref) (rad : R) : M ref :=
  a00 <- get a m00;;
  a01 <- get a m01;;
  a02 <- get a m02;;
  a10 <- get a m03;;
  a11 <- get a m04;;
  a12 <- get a m05;;
  a20 <- get a m06;;
  a21 <- get a m07;;
  a22 <- get a m08;;

  let s := sin rad in
  let c := cos rad in

  put out set_m00 (c * a00 + s * a10);;
  put out set_m01 (c * a01 + s * a11);;
  put out set_m02 (c * a02 + s * a12);;
  put out set_m03 (c * a10 - s * a00);;
  put out set_m04 (c * a11 - s * a01);;
  put out set_m05 (c * a12 - s * a02);;
  put out set_m06 (a20);;
  put out set_m07 (a21);;
  put out set_m08 (a22);;
  ret out.

Definition scale (out a : ref) (v : Vec2.t) : M ref :=
  let x := Vec2.x v in
  let y := Vec2.y v in

  va <- get a m00;; put out set_m00 (x * va);;
  va <- get a m01;; put out set_m01 (x * va);;
  va <- get a m02;; put out set_m02 (x * va);;

  va <- get a m03;; put out set_m03 (y * va);;
  va <- get a m04;; put out set_m04 (y * va);;
  va <- get a m05;; put out set_m05 (y * va);;

  assign out set_m06 (get a m06);;
  assign out set_m07 (get a m07);;
  assign out set_m08 (get a m08);;
  ret out.

Definition fromMat4 (out : ref) (a : Mat4.t) : M ref :=
  put out set_m00 (Mat4.m00 a);;
  put out set_m01 (Mat4.m01 a);;
  put out set_m02 (Mat4.m02 a);;
  put out set_m03 (Mat4.m04 a);;
  put out set_m04 (Mat4.m05 a);;
  put out set_m05 (Mat4.m06 a);;
  put out set_m06 (Mat4.m08 a);;
  put out set_m07 (Mat4.m09 a);;
  put out set_m08 (Mat4.m10 a);;
  ret out.

Definition fromTranslation (out : ref) (v : Vec2.t) : M ref :=
  put out set_m00 1;;
  put out set_m01 0;;
  put out set_m02 0;;
  put out set_m03 0;;
  put out set_m04 1;;
  put out set_m05 0;;
  put out set_m06 (Vec2.x v);;
  put out set_m07 (Vec2.y v);;
  put out set_m08 1;;
  ret out.

Definition fromRotation (out : ref) (rad : R) : M ref :=
  let s := sin rad in
  let c := cos rad in

  put out set_m00 c;;
  put out set_m01 s;;
  put out set_m02 0;;

  put out set_m03 (- s);;
  put out set_m04 c;;
  put out set_m05 0;;

  put out set_m06 0;;
  put out set_m07 0;;
  put out set_m08 1;;
  ret out.

Definition fromScaling (out : ref) (v : Vec2.t) : M ref :=
  put out set_m00 (Vec2.x v);;
  put out set_m01 0;;
  put out set_m02 0;;

  put out set_m03 0;;
  put out set_m04 (Vec2.y v);;
  put out set_m05 0;;

  put out set_m06 0;;
  put out set_m07 0;;
  put out set_m08 1;;
  ret out.

Definition fromMat2d (out : ref) (a : Mat2d.t) : M ref :=
  put out set_m00 (Mat2d.m00 a);;
  put out set_m01 (Mat2d.m01 a);;
  put out set_m02 0;;

  put out set_m03 (Mat2d.m02 a);;
  put out set_m04 (Mat2d.m03 a);;
  put out set_m05 0;;

  put out set_m06 (Mat2d.m04 a);;
  put out set_m07 (Mat2d.m05 a);;
  put out set_m08 1;;
  ret out.

Definition fromQuat (out : ref) (q : Quat.t) : M ref :=
  let x := Quat.x q in let y := Quat.y q in
  let z := Quat.z q in let w := Quat.w q in
  let x2 := x + x in
  let y2 := y + y in
  let z2 := z + z in

  let xx := x * x2 in
  let yx := y * x2 in
  let yy := y * y2 in
  let zx := z * x2 in
  let zy := z * y2 in
  let zz := z * z2 in
  let wx := w * x2 in
  let wy := w * y2 in
  let wz := w * z2 in

  put out set_m00 (1 - yy - zz);;
  put out set_m03 (yx - wz);;
  put out set_m06 (zx + wy);;

  put out set_m01 (yx + wz);;
  put out set_m04 (1 - xx - zz);;
  put out set_m07 (zy - wx);;

  put out set_m02 (zx - wy);;
  put out set_m05 (zy + wx);;
  put out set_m08 (1 - xx - yy);;

  ret out.

(** [null] is [None]. *)
Definition normalFromMat4 (out : ref) (a : Mat4.t) : M (option ref) :=
  let a00 := Mat4.m00 a in let a01 := Mat4.m01 a in
  let a02 := Mat4.m02 a in let a03 := Mat4.m03 a in
  let a10 := Mat4.m04 a in let a11 := Mat4.m05 a in
  let a12 := Mat4.m06 a in let a13 := Mat4.m07 a in
  let a20 := Mat4.m08 a in let a21 := Mat4.m09 a in
  let a22 := Mat4.m10 a in let a23 := Mat4.m11 a in
  let a30 := Mat4.m12 a in let a31 := Mat4.m13 a in
  let a32 := Mat4.m14 a in let a33 := Mat4.m15 a in

  let b00 := a00 * a11 - a01 * a10 in
  let b01 := a00 * a12 - a02 * a10 in
  let b02 := a00 * a13 - a03 * a10 in
  let b03 := a01 * a12 - a02 * a11 in
  let b04 := a01 * a13 - a03 * a11 in
  let b05 := a02 * a13 - a03 * a12 in
  let b06 := a20 * a31 - a21 * a30 in
  let b07 := a20 * a32 - a22 * a30 in
  let b08 := a20 * a33 - a23 * a30 in
  let b09 := a21 * a32 - a22 * a31 in
  let b10 := a21 * a33 - a23 * a31 in
  let b11 := a22 * a33 - a23 * a32 in

  (* Calculate the determinant *)
  let det := b00 * b11 - b01 * b10 + b02 * b09 + b03 * b08 - b04 * b07 + b05 * b06 in

  if falsy det then
    ret None
  else
  let det := 1 / det in

  put out set_m00 ((a11 * b11 - a12 * b10 + a13 * b09) * det);;
  put out set_m01 ((a12 * b08 - a10 * b11 - a13 * b07) * det);;
  put out set_m02 ((a10 * b10 - a11 * b08 + a13 * b06) * det);;

  put out set_m03 ((a02 * b10 - a01 * b11 - a03 * b09) * det);;
  put out set_m04 ((a00 * b11 - a02 * b08 + a03 * b07) * det);;
  put out set_m05 ((a01 * b08 - a00 * b10 - a03 * b06) * det);;

  put out set_m06 ((a31 * b05 - a32 * b04 + a33 * b03) * det);;
  put out set_m07 ((a32 * b02 - a30 * b05 - a33 * b01) * det);;
  put out set_m08 ((a30 * b04 - a31 * b02 + a33 * b00) * det);;

  ret (Some out).

Definition str `{Externals} (a : ref) : M string :=
  v0 <- get a m00;; v1 <- get a m01;; v2 <- get a m02;;
  v3 <- get a m03;; v4 <- get a m04;; v5 <- get a m05;;
  v6 <- get a m06;; v7 <- get a m07;; v8 <- get a m08;;
  ret ("mat3(" ++ number_to_string v0 ++ ", " ++ number_to_string v1
       ++ ", " ++ number_to_string v2 ++ ", " ++ number_to_string v3
       ++ ", " ++ number_to_string v4 ++ ", " ++ number_to_string v5
       ++ ", " ++ number_to_string v6 ++ ", " ++ number_to_string v7
       ++ ", " ++ number_to_string v8 ++ ")")%string.

(** [ofs] is an array index; when omitted it is [0]. *)
Definition array (out m : ref) (ofs : option nat) : M ref :=
  let ofs := default 0%nat ofs in
  v <- get m m00;; puta out (ofs + 0)%nat v;;
  v <- get m m01;; puta out (ofs + 1)%nat v;;
  v <- get m m02;; puta out (ofs + 2)%nat v;;
  v <- get m m03;; puta out (ofs + 3)%nat v;;
  v <- get m m04;; puta out (ofs + 4)%nat v;;
  v <- get m m05;; puta out (ofs + 5)%nat v;;
  v <- get m m06;; puta out (ofs + 6)%nat v;;
  v <- get m m07;; puta out (ofs + 7)%nat v;;
  v <- get m m08;; puta out (ofs + 8)%nat v;;

  ret out.

Definition frob (a : ref) : M R :=
  v0 <- get a m00;; v1 <- get a m01;; v2 <- get a m02;;
  v3 <- get a m03;; v4 <- get a m04;; v5 <- get a m05;;
  v6 <- get a m06;; v7 <- get a m07;; v8 <- get a m08;;
  ret (sqrt (v0 ^ 2 + v1 ^ 2 + v2 ^ 2 +
             v3 ^ 2 + v4 ^ 2 + v5 ^ 2 + v6 ^ 2 +
             v7 ^ 2 + v8 ^ 2)).

Definition add (out a b : ref) : M ref :=
  va <- get a m00;; vb <- get b m00;; put out set_m00 (va + vb);;
  va <- get a m01;; vb <- get b m01;; put out set_m01 (va + vb);;
  va <- get a m02;; vb <- get b m02;; put out set_m02 (va + vb);;
  va <- get a m03;; vb <- get b m03;; put out set_m03 (va + vb);;
  va <- get a m04;; vb <- get b m04;; put out set_m04 (va + vb);;
  va <- get a m05;; vb <- get b m05;; put out set_m05 (va + vb);;
  va <- get a m06;; vb <- get b m06;; put out set_m06 (va + vb);;
  va <- get a m07;; vb <- get b m07;; put out set_m07 (va + vb);;
  va <- get a m08;; vb <- get b m08;; put out set_m08 (va + vb);;
  ret out.

Definition subtract (out a b : ref) : M ref :=
  va <- get a m00;; vb <- get b m00;; put out set_m00 (va - vb);;
  va <- get a m01;; vb <- get b m01;; put out set_m01 (va - vb);;
  va <- get a m02;; vb <- get b m02;; put out set_m02 (va - vb);;
  va <- get a m03;; vb <- get b m03;; put out set_m03 (va - vb);;
  va <- get a m04;; vb <- get b m04;; put out set_m04 (va - vb);;
  va <- get a m05;; vb <- get b m05;; put out set_m05 (va - vb);;
  va <- get a m06;; vb <- get b m06;; put out set_m06 (va - vb);;
  va <- get a m07;; vb <- get b m07;; put out set_m07 (va - vb);;
  va <- get a m08;; vb <- get b m08;; put out set_m08 (va - vb);;
  ret out.

(** Alias of [subtract]. *)
Definition sub (out a b : ref) : M ref :=
  subtract out a b.

Definition multiplyScalar (out a : ref) (b : R) : M ref :=
  va <- get a m00;; put out set_m00 (va * b);;
  va <- get a m01;; put out set_m01 (va * b);;
  va <- get a m02;; put out set_m02 (va * b);;
  va <- get a m03;; put out set_m03 (va * b);;
  va <- get a m04;; put out set_m04 (va * b);;
  va <- get a m05;; put out set_m05 (va * b);;
  va <- get a m06;; put out set_m06 (va * b);;
  va <- get a m07;; put out set_m07 (va * b);;
  va <- get a m08;; put out set_m08 (va * b);;
  ret out.

Definition multiplyScalarAndAdd (out a b : ref) (scale : R) : M ref :=
  va <- get a m00;; vb <- get b m00;; put out set_m00 (va + (vb * scale));;
  va <- get a m01;; vb <- get b m01;; put out set_m01 (va + (vb * scale));;
  va <- get a m02;; vb <- get b m02;; put out set_m02 (va + (vb * scale));;
  va <- get a m03;; vb <- get b m03;; put out set_m03 (va + (vb * scale));;
  va <- get a m04;; vb <- get b m04;; put out set_m04 (va + (vb * scale));;
  va <- get a m05;; vb <- get b m05;; put out set_m05 (va + (vb * scale));;
  va <- get a m06;; vb <- get b m06;; put out set_m06 (va + (vb * scale));;
  va <- get a m07;; vb <- get b m07;; put out set_m07 (va + (vb * scale));;
  va <- get a m08;; vb <- get b m08;; put out set_m08 (va + (vb * scale));;
  ret out.

(** [c1 && c2] on booleans: [c2] is not evaluated when [c1] is false. *)
Definition and_then (c1 c2 : M bool) : M bool :=
  b <- c1;; if b then c2 else ret false.

Definition exactEquals (a b : ref) : M bool :=
  let field_eq f := (va <- get a f;; vb <- get b f;; ret (num_eq va vb)) in
  and_then (field_eq m00) (and_then (field_eq m01) (and_then (field_eq m02)
 (and_then (field_eq m03) (and_then (field_eq m04) (and_then (field_eq m05)
 (and_then (field_eq m06) (and_then (field_eq m07) (field_eq m08)))))))).

Definition equals `{Externals} (a b : ref) : M bool :=
  a0 <- get a m00;; a1 <- get a m01;; a2 <- get a m02;;
  a3 <- get a m03;; a4 <- get a m04;; a5 <- get a m05;;
  a6 <- get a m06;; a7 <- get a m07;; a8 <- get a m08;;
  b0 <- get b m00;; b1 <- get b m01;; b2 <- get b m02;;
  b3 <- get b m03;; b4 <- get b m04;; b5 <- get b m05;;
  b6 <- get b m06;; b7 <- get b m07;; b8 <- get b m08;;
  let close x y :=
    num_le (Rabs (x - y)) (EPSILON * Rmax 1 (Rmax (Rabs x) (Rabs y))) in
  ret (close a0 b0 && close a1 b1 && close a2 b2 &&
       close a3 b3 && close a4 b4 && close a5 b5 &&
       close a6 b6 && close a7 b7 && close a8 b8).

End Mat3.

(** ** [class line] *)
Module Line.

(** [r.s.x] and the like: the end point is looked up, then its
    coordinate. *)
Definition get_coord (r : ref) (pt : line -> ref) (f : Vec3.t -> R) : M R :=
  p <- getl r pt;; getv p f.

(** [r.s.x = v] and the like. *)
Definition put_coord (r : ref) (pt : line -> ref)
    (setf : R -> Vec3.t -> Vec3.t) (v : R) : M unit :=
  p <- getl r pt;; putv p setf v.

(** The constructor, with its default parameters: an omitted argument is
    [None]. *)
Definition new `{Externals} (sx sy sz ex ey ez : option R) : M ref :=
  let sx := default 0 sx in let sy := default 0 sy in
  let sz := default 0 sz in let ex := default 0 ex in
  let ey := default 0 ey in let ez := default (-1) ez in
  let _type := SHAPE_LINE in
  s <- vec3_create sx sy sz;;
  e <- vec3_create ex ey ez;;
  alloc (OLine (mk_line _type s e)).

Definition create `{Externals} (sx sy sz ex ey ez : R) : M ref :=
  new (Some sx) (Some sy) (Some sz) (Some ex) (Some ey) (Some ez).

Definition clone `{Externals} (a : ref) : M ref :=
  sx <- get_coord a s Vec3.x;;
  sy <- get_coord a s Vec3.y;;
  sz <- get_coord a s Vec3.z;;
  ex <- get_coord a e Vec3.x;;
  ey <- get_coord a e Vec3.y;;
  ez <- get_coord a e Vec3.z;;
  new (Some sx) (Some sy) (Some sz) (Some ex) (Some ey) (Some ez).

Definition copy (out a : ref) : M ref :=
  os <- getl out s;; as_ <- getl a s;; vec3_copy os as_;;
  oe <- getl out e;; ae <- getl a e;; vec3_copy oe ae;;

  ret out.

Definition fromPoints (out start end_ : ref) : M ref :=
  os <- getl out s;; vec3_copy os start;;
  oe <- getl out e;; vec3_copy oe end_;;
  ret out.

Definition set (out : ref) (sx sy sz ex ey ez : R) : M ref :=
  put_coord out s Vec3.set_x sx;;
  put_coord out s Vec3.set_y sy;;
  put_coord out s Vec3.set_z sz;;
  put_coord out e Vec3.set_x ex;;
  put_coord out e Vec3.set_y ey;;
  put_coord out e Vec3.set_z ez;;

  ret out.

Definition magnitude (a : ref) : M R :=
  p <- getl a s;; q <- getl a e;; vec3_distance p q.

(** Alias of [magnitude]. *)
Definition mag (a : ref) : M R :=
  magnitude a.

End Line.

(** ** Specifications *)

(** The matrix that [identity] writes. *)
Definition identity_matrix : mat3 := mk_mat3 1 0 0 0 1 0 0 0 1.

(** The determinant of a 3x3 array of numbers, by the rule of Sarrus. *)
Definition det3x3 (a b c d e f g h i : R) : R :=
  a * e * i + b * f * g + c * d * h - c * e * g - b * d * i - a * f * h.

(** The determinant of a 4x4 matrix, by Laplace expansion along its first
    column [m00 .. m03]: the mathematical notion, against which the value
    that [normalFromMat4] tests is compared. *)
Definition mat4_determinant (a : Mat4.t) : R :=
  let '(Mat4.mk a00 a01 a02 a03 a10 a11 a12 a13
                a20 a21 a22 a23 a30 a31 a32 a33) := a in
    a00 * det3x3 a11 a12 a13 a21 a22 a23 a31 a32 a33
  - a01 * det3x3 a10 a12 a13 a20 a22 a23 a30 a32 a33
  + a02 * det3x3 a10 a11 a13 a20 a21 a23 a30 a31 a33
  - a03 * det3x3 a10 a11 a12 a20 a21 a22 a30 a31 a32.

(** [mat3.create()] and [new mat3()], [new line()]: no argument given. *)
Definition create_default : M ref :=
  Mat3.create None None None None None None None None None.
Definition new_default : M ref :=
  Mat3.new None None None None None None None None None.
Definition new_line_default `{Externals} : M ref :=
  Line.new None None None None None None.

(** [wp c h Q]: run from [h], the program [c] returns, and the result and
    the final heap satisfy [Q]. *)
Definition wp {A} (c : M A) (h : heap) (Q : A -> heap -> Prop) : Prop :=
  exists a h', c h = Some (a, h') /\ Q a h'.

(** ** The two libraries as a whole

    Every static method and the two constructors, as a call with its
    arguments, and what a call returns. *)
Inductive value : Type :=
| VNull
| VRef (r : ref)
| VNum (x : R)
| VBool (b : bool)
| VString (str : string).

Inductive call : Type :=
| mat3_new (m00 m01 m02 m03 m04 m05 m06 m07 m08 : option R)
| mat3_fromViewUp (env : Mat3.view_up_env) (out view : ref) (up : option ref)
| mat3_create (m00 m01 m02 m03 m04 m05 m06 m07 m08 : option R)
| mat3_clone (a : ref)
| mat3_copy (out a : ref)
| mat3_set (out : ref) (m00 m01 m02 m10 m11 m12 m20 m21 m22 : R)
| mat3_identity (out : ref)
| mat3_transpose (out a : ref)
| mat3_invert (out a : ref)
| mat3_adjoint (out a : ref)
| mat3_determinant (a : ref)
| mat3_multiply (out a b : ref)
| mat3_mul (out a b : ref)
| mat3_translate (out a : ref) (v : Vec2.t)
| mat3_rotate (out a : ref) (rad : R)
| mat3_scale (out a : ref) (v : Vec2.t)
| mat3_fromMat4 (out : ref) (a : Mat4.t)
| mat3_fromTranslation (out : ref) (v : Vec2.t)
| mat3_fromRotation (out : ref) (rad : R)
| mat3_fromScaling (out : ref) (v : Vec2.t)
| mat3_fromMat2d (out : ref) (a : Mat2d.t)
| mat3_fromQuat (out : ref) (q : Quat.t)
| mat3_normalFromMat4 (out : ref) (a : Mat4.t)
| mat3_str (a : ref)
| mat3_array (out m : ref) (ofs : option nat)
| mat3_frob (a : ref)
| mat3_add (out a b : ref)
| mat3_subtract (out a b : ref)
| mat3_sub (out a b : ref)
| mat3_multiplyScalar (out a : ref) (b : R)
| mat3_multiplyScalarAndAdd (out a b : ref) (scale : R)
| mat3_exactEquals (a b : ref)
| mat3_equals (a b : ref)
| line_new (sx sy sz ex ey ez : option R)
| line_create (sx sy sz ex ey ez : R)
| line_clone (a : ref)
| line_copy (out a : ref)
| line_fromPoints (out start end_ : ref)
| line_set (out : ref) (sx sy sz ex ey ez : R)
| line_magnitude (a : ref)
| line_mag (a : ref).

Definition ref_result (c : M ref) : M value := r <- c;; ret (VRef r).
Definition num_result (c : M R) : M value := x <- c;; ret (VNum x).
Definition bool_result (c : M bool) : M value := b <- c;; ret (VBool b).
Definition string_result (c : M string) : M value := x <- c;; ret (VString x).
Definition nullable_result (c : M (option ref)) : M value :=
  r <- c;; ret (match r with Some r => VRef r | None => VNull end).

Definition exec `{Externals} (c : call) : M value :=
  match c with
  | mat3_new m00 m01 m02 m03 m04 m05 m06 m07 m08 =>
      ref_result (Mat3.new m00 m01 m02 m03 m04 m05 m06 m07 m08)
  | mat3_fromViewUp env out view up =>
      ref_result (Mat3.fromViewUp env out view up)
  | mat3_create m00 m01 m02 m03 m04 m05 m06 m07 m08 =>
      ref_result (Mat3.create m00 m01 m02 m03 m04 m05 m06 m07 m08)
  | mat3_clone a => ref_result (Mat3.clone a)
  | mat3_copy out a => ref_result (Mat3.copy out a)
  | mat3_set out m00 m01 m02 m10 m11 m12 m20 m21 m22 =>
      ref_result (Mat3.set out m00 m01 m02 m10 m11 m12 m20 m21 m22)
  | mat3_identity out => ref_result (Mat3.identity out)
  | mat3_transpose out a => ref_result (Mat3.transpose out a)
  | mat3_invert out a => nullable_result (Mat3.invert out a)
  | mat3_adjoint out a => ref_result (Mat3.adjoint out a)
  | mat3_determinant a => num_result (Mat3.determinant a)
  | mat3_multiply out a b => ref_result (Mat3.multiply out a b)
  | mat3_mul out a b => ref_result (Mat3.mul out a b)
  | mat3_translate out a v => ref_result (Mat3.translate out a v)
  | mat3_rotate out a rad => ref_result (Mat3.rotate out a rad)
  | mat3_scale out a v => ref_result (Mat3.scale out a v)
  | mat3_fromMat4 out a => ref_result (Mat3.fromMat4 out a)
  | mat3_fromTranslation out v => ref_result (Mat3.fromTranslation out v)
  | mat3_fromRotation out rad => ref_result (Mat3.fromRotation out rad)
  | mat3_fromScaling out v => ref_result (Mat3.fromScaling out v)
  | mat3_fromMat2d out a => ref_result (Mat3.fromMat2d out a)
  | mat3_fromQuat out q => ref_result (Mat3.fromQuat out q)
  | mat3_normalFromMat4 out a => nullable_result (Mat3.normalFromMat4 out a)
  | mat3_str a => string_result (Mat3.str a)
  | mat3_array out m ofs => ref_result (Mat3.array out m ofs)
  | mat3_frob a => num_result (Mat3.frob a)
  | mat3_add out a b => ref_result (Mat3.add out a b)
  | mat3_subtract out a b => ref_result (Mat3.subtract out a b)
  | mat3_sub out a b => ref_result (Mat3.sub out a b)
  | mat3_multiplyScalar out a b => ref_result (Mat3.multiplyScalar out a b)
  | mat3_multiplyScalarAndAdd out a b scale =>
      ref_result (Mat3.multiplyScalarAndAdd out a b scale)
  | mat3_exactEquals a b => bool_result (Mat3.exactEquals a b)
  | mat3_equals a b => bool_result (Mat3.equals a b)
  | line_new sx sy sz ex ey ez => ref_result (Line.new sx sy sz ex ey ez)
  | line_create sx sy sz ex ey ez =>
      ref_result (Line.create sx sy sz ex ey ez)
  | line_clone a => ref_result (Line.clone a)
  | line_copy out a => ref_result (Line.copy out a)
  | line_fromPoints out start end_ =>
      ref_result (Line.fromPoints out start end_)
  | line_set out sx sy sz ex ey ez =>
      ref_result (Line.set out sx sy sz ex ey ez)
  | line_magnitude a => num_result (Line.magnitude a)
  | line_mag a => num_result (Line.mag a)
  end.

(** The two methods with a failure branch. *)
Definition has_null_branch (c : call) : bool :=
  match c with
  | mat3_invert _ _ | mat3_normalFromMat4 _ _ => true
  | _ => false
  end.

(** The arguments of a call are of the classes that the method expects. *)
Definition is_mat3 (h : heap) (r : ref) : bool :=
  match h !! r with Some (OMat3 _) => true | _ => false end.
Definition is_vec3 (h : heap) (r : ref) : bool :=
  match h !! r with Some (OVec3 _) => true | _ => false end.
Definition is_array (h : heap) (r : ref) : bool :=
  match h !! r with Some (OArray _) => true | _ => false end.
Definition is_line (h : heap) (r : ref) : bool :=
  match h !! r with
  | Some (OLine l) => is_vec3 h (s l) && is_vec3 h (e l)
  | _ => false
  end.

Definition well_typed (h : heap) (c : call) : bool :=
  match c with
  | mat3_new _ _ _ _ _ _ _ _ _ | mat3_create _ _ _ _ _ _ _ _ _
  | line_new _ _ _ _ _ _ | line_create _ _ _ _ _ _ => true
  | mat3_fromViewUp env out view up =>
      is_vec3 h (Mat3.default_up env) && is_vec3 h (Mat3.scratch_x env)
      && is_vec3 h (Mat3.scratch_y env)
      && is_mat3 h out && is_vec3 h view
      && match up with Some u => is_vec3 h u | None => true end
  | mat3_clone a | mat3_determinant a | mat3_str a | mat3_frob a =>
      is_mat3 h a
  | mat3_set out _ _ _ _ _ _ _ _ _ | mat3_identity out
  | mat3_fromMat4 out _ | mat3_fromTranslation out _
  | mat3_fromRotation out _ | mat3_fromScaling out _
  | mat3_fromMat2d out _ | mat3_fromQuat out _
  | mat3_normalFromMat4 out _ => is_mat3 h out
  | mat3_copy out a | mat3_transpose out a | mat3_invert out a
  | mat3_adjoint out a | mat3_translate out a _ | mat3_rotate out a _
  | mat3_scale out a _ | mat3_multiplyScalar out a _ =>
      is_mat3 h out && is_mat3 h a
  | mat3_multiply out a b | mat3_mul out a b | mat3_add out a b
  | mat3_subtract out a b | mat3_sub out a b
  | mat3_multiplyScalarAndAdd out a b _ =>
      is_mat3 h out && is_mat3 h a && is_mat3 h b
  | mat3_exactEquals a b | mat3_equals a b => is_mat3 h a && is_mat3 h b
  | mat3_array out m _ => is_array h out && is_mat3 h m
  | line_clone a | line_magnitude a | line_mag a => is_line h a
  | line_copy out a => is_line h out && is_line h a
  | line_fromPoints out start end_ =>
      is_line h out && is_vec3 h start && is_vec3 h end_
  | line_set out _ _ _ _ _ _ => is_line h out
  end.

(** The class of an object; a [line] keeps its two end-point references. *)
Inductive kind : Type := KMat3 | KVec3 | KLine (l : line) | KArray.

Definition kind_of (o : obj) : kind :=
  match o with
  | OMat3 _ => KMat3
  | OVec3 _ => KVec3
  | OLine l => KLine l
  | OArray _ => KArray
  end.

(** [keeps h0 h]: every object of [h0] is still there in [h], of the same
    class. *)
Definition keeps (h0 h : heap) : Prop :=
  forall r o, h0 !! r = Some o ->
    exists o', h !! r = Some o' /\ kind_of o' = kind_of o.

(** [runs h0 c Q]: from any heap that keeps the objects of [h0], the
    program [c] returns, with a result that satisfies [Q], and the objects
    of [h0] are kept. *)
Definition runs {A} (h0 : heap) (c : M A) (Q : A -> Prop) : Prop :=
  forall h, keeps h0 h -> wp c h (fun a h' => keeps h0 h' /\ Q a).

(** ** Concrete inputs *)

(** One choice of what is left open, used to run the definitions: the usual
    squared length and cross product, and no normalisation. *)
Definition example_externals : Externals := {|
  EPSILON := 1 / 1000000;
  SHAPE_LINE := 2;
  number_to_string := fun _ => "0"%string;
  sqrMag_of := fun v =>
    Vec3.x v * Vec3.x v + Vec3.y v * Vec3.y v + Vec3.z v * Vec3.z v;
  cross_of := fun a b =>
    Vec3.mk (Vec3.y a * Vec3.z b - Vec3.z a * Vec3.y b)
            (Vec3.z a * Vec3.x b - Vec3.x a * Vec3.z b)
            (Vec3.x a * Vec3.y b - Vec3.y a * Vec3.x b);
  normalize_of := fun v => v
|}.

(** A heap with three matrices, at [1], [2] and [3], and a line at [6]
    from the point at [4] to the point at [5]. *)
Definition example_matrix : mat3 := mk_mat3 2 0 0 0 1 0 0 0 1.
Definition singular_matrix : mat3 := mk_mat3 1 2 3 2 4 6 0 0 1.
Definition singular_mat4 : Mat4.t :=
  Mat4.mk 1 0 0 0 0 1 0 0 0 0 0 0 0 0 0 1.

Definition example_heap : heap :=
  <[6%positive := OLine (mk_line 2 4%positive 5%positive)]>
  (<[5%positive := OVec3 (Vec3.mk 3 4 0)]>
  (<[4%positive := OVec3 (Vec3.mk 0 0 0)]>
  (<[3%positive := OMat3 singular_matrix]>
  (<[2%positive := OMat3 identity_matrix]>
  (<[1%positive := OMat3 example_matrix]> ∅))))).

(** The same heap with an empty array at [7]. *)
Definition example_heap_with_array : heap :=
  <[7%positive := OArray ∅]> example_heap.

(** Six matrices, at [1] to [6]. *)
Definition matrix_heap : heap :=
  <[6%positive := OMat3 identity_matrix]>
  (<[5%positive := OMat3 identity_matrix]>
  (<[4%positive := OMat3 identity_matrix]>
  (<[3%positive := OMat3 identity_matrix]>
  (<[2%positive := OMat3 singular_matrix]>
  (<[1%positive := OMat3 example_matrix]> ∅))))).

(** Points at [1] to [6] and at [10], a line at [7] from the point at [4]
    to the point at [5], a line at [8] from the point at [6] to the point
    at [10], and a matrix at [9].  The points at [1], [2] and [3] serve as
    the closure of [fromViewUp]. *)
Definition point_heap : heap :=
  <[10%positive := OVec3 (Vec3.mk 1 1 1)]>
  (<[9%positive := OMat3 example_matrix]>
  (<[8%positive := OLine (mk_line 2 6%positive 10%positive)]>
  (<[7%positive := OLine (mk_line 2 4%positive 5%positive)]>
  (<[6%positive := OVec3 (Vec3.mk 1 2 3)]>
  (<[5%positive := OVec3 (Vec3.mk 3 4 0)]>
  (<[4%positive := OVec3 (Vec3.mk 0 0 0)]>
  (<[3%positive := OVec3 (Vec3.mk 0 0 0)]>
  (<[2%positive := OVec3 (Vec3.mk 0 0 0)]>
  (<[1%positive := OVec3 (Vec3.mk 0 1 0)]> ∅))))))))).

Definition example_env : Mat3.view_up_env :=
  Mat3.mk_env 1%positive 2%positive 3%positive.


(** The matrix with fields [1 0 0 0 2^701 2^700 0 2^700 2^700], and a 4x4
    matrix of integers whose fields [m00 .. m03] and [m12 .. m15] are the
    same four numbers. *)
Definition overflowing_exact : mat3 :=
  mk_mat3 1 0 0 0 (2 ^ 701) (2 ^ 700) 0 (2 ^ 700) (2 ^ 700).

Definition singular_integer_mat4_exact : Mat4.t :=
  Mat4.mk 134217729 3 5 7
          134217729 3 5 2
          3 134217729 0 1
          134217729 3 5 7.

(** ** The arithmetic routines in binary64

    A JavaScript [number] is an IEEE 754 double.  Where rounding, overflow
    and [NaN] decide what the code does, the routines are embedded a second
    time over the primitive binary64 numbers, statement by statement as
    above, on a heap of matrices. *)
Module Binary64.
Import PrimFloat.
Local Open Scope float_scope.

(** [!x] on a number: true for [+0], [-0] and [NaN]. *)
Definition is_zero (x : float) : bool := x =? 0.
Definition is_nan (x : float) : bool := negb (x =? x).
Definition falsy (x : float) : bool := is_zero x || is_nan x.

(** [Math.max] of three numbers: [NaN] when one of them is. *)
Definition max2 (x y : float) : float :=
  if is_nan x then x else if is_nan y then y else if x <? y then y else x.
Definition max3 (x y z : float) : float := max2 (max2 x y) z.

Record mat3 : Type := mk_mat3 {
  m00 : float; m01 : float; m02 : float;
  m03 : float; m04 : float; m05 : float;
  m06 : float; m07 : float; m08 : float
}.

Definition set_m00 (v : float) (a : mat3) : mat3 :=
  mk_mat3 v (m01 a) (m02 a) (m03 a) (m04 a) (m05 a) (m06 a) (m07 a) (m08 a).
Definition set_m01 (v : float) (a : mat3) : mat3 :=
  mk_mat3 (m00 a) v (m02 a) (m03 a) (m04 a) (m05 a) (m06 a) (m07 a) (m08 a).
Definition set_m02 (v : float) (a : mat3) : mat3 :=
  mk_mat3 (m00 a) (m01 a) v (m03 a) (m04 a) (m05 a) (m06 a) (m07 a) (m08 a).
Definition set_m03 (v : float) (a : mat3) : mat3 :=
  mk_mat3 (m00 a) (m01 a) (m02 a) v (m04 a) (m05 a) (m06 a) (m07 a) (m08 a).
Definition set_m04 (v : float) (a : mat3) : mat3 :=
  mk_mat3 (m00 a) (m01 a) (m02 a) (m03 a) v (m05 a) (m06 a) (m07 a) (m08 a).
Definition set_m05 (v : float) (a : mat3) : mat3 :=
  mk_mat3 (m00 a) (m01 a) (m02 a) (m03 a) (m04 a) v (m06 a) (m07 a) (m08 a).
Definition set_m06 (v : float) (a : mat3) : mat3 :=
  mk_mat3 (m00 a) (m01 a) (m02 a) (m03 a) (m04 a) (m05 a) v (m07 a) (m08 a).
Definition set_m07 (v : float) (a : mat3) : mat3 :=
  mk_mat3 (m00 a) (m01 a) (m02 a) (m03 a) (m04 a) (m05 a) (m06 a) v (m08 a).
Definition set_m08 (v : float) (a : mat3) : mat3 :=
  mk_mat3 (m00 a) (m01 a) (m02 a) (m03 a) (m04 a) (m05 a) (m06 a) (m07 a) v.

(** The argument [a] of [normalFromMat4]: only read, passed as a record. *)
Record mat4 : Type := mk_mat4 {
  n00 : float; n01 : float; n02 : float; n03 : float;
  n04 : float; n05 : float; n06 : float; n07 : float;
  n08 : float; n09 : float; n10 : float; n11 : float;
  n12 : float; n13 : float; n14 : float; n15 : float
}.

Abbreviation heap := (gmap ref mat3).

(** The heap monad, as above; [None] is a run-time [TypeError]. *)
Definition M (A : Type) : Type := heap -> option (A * heap).

Definition ret {A} (a : A) : M A := fun h => Some (a, h).

Definition bind {A B} (c : M A) (k : A -> M B) : M B :=
  fun h => match c h with
           | Some (a, h') => k a h'
           | None => None
           end.

Declare Scope binary64_scope.
Notation "x <- c ;; k" := (bind c (fun x => k))
  (at level 100, c at next level, right associativity) : binary64_scope.
Notation "c ;; k" := (bind c (fun _ => k))
  (at level 100, right associativity) : binary64_scope.
Local Open Scope binary64_scope.

Definition get (r : ref) (f : mat3 -> float) : M float :=
  fun h => match h !! r with
           | Some m => Some (f m, h)
           | None => None
           end.

Definition put (r : ref) (setf : float -> mat3 -> mat3) (v : float) : M unit :=
  fun h => match h !! r with
           | Some m => Some (tt, <[r := setf v m]> h)
           | None => None
           end.

Definition determinant (a : ref) : M float :=
  a00 <- get a m00;; a01 <- get a m01;; a02 <- get a m02;;
  a10 <- get a m03;; a11 <- get a m04;; a12 <- get a m05;;
  a20 <- get a m06;; a21 <- get a m07;; a22 <- get a m08;;

  ret (a00 * (a22 * a11 - a12 * a21)
       + a01 * ((- a22) * a10 + a12 * a20)
       + a02 * (a21 * a10 - a11 * a20)).

(** [null] is [None]. *)
Definition invert (out a : ref) : M (option ref) :=
  a00 <- get a m00;; a01 <- get a m01;; a02 <- get a m02;;
  a10 <- get a m03;; a11 <- get a m04;; a12 <- get a m05;;
  a20 <- get a m06;; a21 <- get a m07;; a22 <- get a m08;;

  let b01 := a22 * a11 - a12 * a21 in
  let b11 := (- a22) * a10 + a12 * a20 in
  let b21 := a21 * a10 - a11 * a20 in

  (* Calculate the determinant *)
  let det := a00 * b01 + a01 * b11 + a02 * b21 in

  if falsy det then
    ret None
  else
  let det := 1 / det in

  put out set_m00 (b01 * det);;
  put out set_m01 (((- a22) * a01 + a02 * a21) * det);;
  put out set_m02 ((a12 * a01 - a02 * a11) * det);;
  put out set_m03 (b11 * det);;
  put out set_m04 ((a22 * a00 - a02 * a20) * det);;
  put out set_m05 (((- a12) * a00 + a02 * a10) * det);;
  put out set_m06 (b21 * det);;
  put out set_m07 (((- a21) * a00 + a01 * a20) * det);;
  put out set_m08 ((a11 * a00 - a01 * a10) * det);;
  ret (Some out).

Definition multiply (out a b : ref) : M ref :=
  a00 <- get a m00;; a01 <- get a m01;; a02 <- get a m02;;
  a10 <- get a m03;; a11 <- get a m04;; a12 <- get a m05;;
  a20 <- get a m06;; a21 <- get a m07;; a22 <- get a m08;;

  b00 <- get b m00;; b01 <- get b m01;; b02 <- get b m02;;
  b10 <- get b m03;; b11 <- get b m04;; b12 <- get b m05;;
  b20 <- get b m06;; b21 <- get b m07;; b22 <- get b m08;;

  put out set_m00 (b00 * a00 + b01 * a10 + b02 * a20);;
  put out set_m01 (b00 * a01 + b01 * a11 + b02 * a21);;
  put out set_m02 (b00 * a02 + b01 * a12 + b02 * a22);;

  put out set_m03 (b10 * a00 + b11 * a10 + b12 * a20);;
  put out set_m04 (b10 * a01 + b11 * a11 + b12 * a21);;
  put out set_m05 (b10 * a02 + b11 * a12 + b12 * a22);;

  put out set_m06 (b20 * a00 + b21 * a10 + b22 * a20);;
  put out set_m07 (b20 * a01 + b21 * a11 + b22 * a21);;
  put out set_m08 (b20 * a02 + b21 * a12 + b22 * a22);;
  ret out.

(** The value that [normalFromMat4] computes as the determinant. *)
Definition normalFromMat4_det (a : mat4) : float :=
  let a00 := n00 a in let a01 := n01 a in
  let a02 := n02 a in let a03 := n03 a in
  let a10 := n04 a in let a11 := n05 a in
  let a12 := n06 a in let a13 := n07 a in
  let a20 := n08 a in let a21 := n09 a in
  let a22 := n10 a in let a23 := n11 a in
  let a30 := n12 a in let a31 := n13 a in
  let a32 := n14 a in let a33 := n15 a in

  let b00 := a00 * a11 - a01 * a10 in
  let b01 := a00 * a12 - a02 * a10 in
  let b02 := a00 * a13 - a03 * a10 in
  let b03 := a01 * a12 - a02 * a11 in
  let b04 := a01 * a13 - a03 * a11 in
  let b05 := a02 * a13 - a03 * a12 in
  let b06 := a20 * a31 - a21 * a30 in
  let b07 := a20 * a32 - a22 * a30 in
  let b08 := a20 * a33 - a23 * a30 in
  let b09 := a21 * a32 - a22 * a31 in
  let b10 := a21 * a33 - a23 * a31 in
  let b11 := a22 * a33 - a23 * a32 in

  b00 * b11 - b01 * b10 + b02 * b09 + b03 * b08 - b04 * b07 + b05 * b06.

Definition normalFromMat4 (out : ref) (a : mat4) : M (option ref) :=
  let a00 := n00 a in let a01 := n01 a in
  let a02 := n02 a in let a03 := n03 a in
  let a10 := n04 a in let a11 := n05 a in
  let a12 := n06 a in let a13 := n07 a in
  let a20 := n08 a in let a21 := n09 a in
  let a22 := n10 a in let a23 := n11 a in
  let a30 := n12 a in let a31 := n13 a in
  let a32 := n14 a in let a33 := n15 a in

  let b00 := a00 * a11 - a01 * a10 in
  let b01 := a00 * a12 - a02 * a10 in
  let b02 := a00 * a13 - a03 * a10 in
  let b03 := a01 * a12 - a02 * a11 in
  let b04 := a01 * a13 - a03 * a11 in
  let b05 := a02 * a13 - a03 * a12 in
  let b06 := a20 * a31 - a21 * a30 in
  let b07 := a20 * a32 - a22 * a30 in
  let b08 := a20 * a33 - a23 * a30 in
  let b09 := a21 * a32 - a22 * a31 in
  let b10 := a21 * a33 - a23 * a31 in
  let b11 := a22 * a33 - a23 * a32 in

  (* Calculate the determinant *)
  let det := b00 * b11 - b01 * b10 + b02 * b09 + b03 * b08 - b04 * b07 + b05 * b06 in

  if falsy det then
    ret None
  else
  let det := 1 / det in

  put out set_m00 ((a11 * b11 - a12 * b10 + a13 * b09) * det);;
  put out set_m01 ((a12 * b08 - a10 * b11 - a13 * b07) * det);;
  put out set_m02 ((a10 * b10 - a11 * b08 + a13 * b06) * det);;

  put out set_m03 ((a02 * b10 - a01 * b11 - a03 * b09) * det);;
  put out set_m04 ((a00 * b11 - a02 * b08 + a03 * b07) * det);;
  put out set_m05 ((a01 * b08 - a00 * b10 - a03 * b06) * det);;

  put out set_m06 ((a31 * b05 - a32 * b04 + a33 * b03) * det);;
  put out set_m07 ((a32 * b02 - a30 * b05 - a33 * b01) * det);;
  put out set_m08 ((a30 * b04 - a31 * b02 + a33 * b00) * det);;

  ret (Some out).

(** [EPSILON] of [./utils] is not part of the sources: an argument. *)
Definition equals (EPSILON : float) (a b : ref) : M bool :=
  a0 <- get a m00;; a1 <- get a m01;; a2 <- get a m02;;
  a3 <- get a m03;; a4 <- get a m04;; a5 <- get a m05;;
  a6 <- get a m06;; a7 <- get a m07;; a8 <- get a m08;;
  b0 <- get b m00;; b1 <- get b m01;; b2 <- get b m02;;
  b3 <- get b m03;; b4 <- get b m04;; b5 <- get b m05;;
  b6 <- get b m06;; b7 <- get b m07;; b8 <- get b m08;;
  let close x y :=
    abs (x - y) <=? EPSILON * max3 1 (abs x) (abs y) in
  ret (close a0 b0 && close a1 b1 && close a2 b2 &&
       close a3 b3 && close a4 b4 && close a5 b5 &&
       close a6 b6 && close a7 b7 && close a8 b8).

(** [wp c h Q], as above. *)
Definition wp {A} (c : M A) (h : heap) (Q : A -> heap -> Prop) : Prop :=
  exists a h', c h = Some (a, h') /\ Q a h'.

(** *** Concrete inputs *)

Definition identity_matrix : mat3 := mk_mat3 1 0 0 0 1 0 0 0 1.



(** The diagonal matrix with [2^400] on the diagonal: its determinant
    overflows. *)
Definition huge_diagonal : mat3 :=
  mk_mat3 0x1p400 0 0 0 0x1p400 0 0 0 0x1p400.

(** The diagonal matrix with [2^-400] on the diagonal: its determinant
    underflows. *)
Definition tiny_diagonal : mat3 :=
  mk_mat3 0x1p-400 0 0 0 0x1p-400 0 0 0 0x1p-400.

(** Finite fields whose products overflow: the determinant, [2^1400] over
    the reals, is computed as [Infinity - Infinity]. *)
Definition overflowing : mat3 :=
  mk_mat3 1 0 0 0 0x1p701 0x1p700 0 0x1p700 0x1p700.

(** A heap with the matrix [A] at [1], and identity matrices at [2], [3]
    and [4]. *)
Definition heap_of (A : mat3) : heap :=
  <[4%positive := identity_matrix]>
  (<[3%positive := identity_matrix]>
  (<[2%positive := identity_matrix]>
  (<[1%positive := A]> ∅))).

(** A matrix with determinant [2]. *)
Definition regular : mat3 := mk_mat3 2 0 0 0 1 0 0 0 1.

(** A 4x4 matrix of integers whose fields [m00 .. m03] and [m12 .. m15]
    are the same four numbers: its determinant is zero. *)
Definition singular_integer_mat4 : mat4 :=
  mk_mat4 134217729 3 5 7
          134217729 3 5 2
          3 134217729 0 1
          134217729 3 5 7.

(** A 4x4 matrix whose fields [m08 .. m11] are zero. *)
Definition flat_mat4 : mat4 := mk_mat4 1 0 0 0 0 1 0 0 0 0 0 0 0 0 0 1.

End Binary64.

(** ** Reasoning about programs *)

Lemma wp_ret {A} (a : A) h (Q : A -> heap -> Prop) :
  Q a h -> wp (ret a) h Q.
Proof. intros HQ. exists a, h. split; [reflexivity | exact HQ]. Qed.

Lemma wp_bind {A B} (c : M A) (k : A -> M B) h (Q : B -> heap -> Prop) :
  wp c h (fun a h' => wp (k a) h' Q) -> wp (bind c k) h Q.
Proof.
  intros (a & h' & Hc & b & h'' & Hk & HQ).
  exists b, h''. unfold bind. rewrite Hc. split; assumption.
Qed.

Lemma wp_mono {A} (c : M A) h (Q Q' : A -> heap -> Prop) :
  wp c h Q -> (forall a h', Q a h' -> Q' a h') -> wp c h Q'.
Proof. intros (a & h' & Hc & HQ) HQQ. exists a, h'. split; auto. Qed.

Lemma wp_get r f h m (Q : R -> heap -> Prop) :
  h !! r = Some (OMat3 m) -> Q (f m) h -> wp (get r f) h Q.
Proof.
  intros Hr HQ. exists (f m), h. unfold get. rewrite Hr. split; [reflexivity | exact HQ].
Qed.

Lemma wp_put r setf v h m (Q : unit -> heap -> Prop) :
  h !! r = Some (OMat3 m) ->
  Q tt (<[r := OMat3 (setf v m)]> h) -> wp (put r setf v) h Q.
Proof.
  intros Hr HQ. eexists tt, _. unfold put. rewrite Hr. split; [reflexivity | exact HQ].
Qed.

Lemma wp_getv r f h v (Q : R -> heap -> Prop) :
  h !! r = Some (OVec3 v) -> Q (f v) h -> wp (getv r f) h Q.
Proof.
  intros Hr HQ. exists (f v), h. unfold getv. rewrite Hr. split; [reflexivity | exact HQ].
Qed.

Lemma wp_putv r setf x h v (Q : unit -> heap -> Prop) :
  h !! r = Some (OVec3 v) ->
  Q tt (<[r := OVec3 (setf x v)]> h) -> wp (putv r setf x) h Q.
Proof.
  intros Hr HQ. eexists tt, _. unfold putv. rewrite Hr. split; [reflexivity | exact HQ].
Qed.

Lemma wp_getl r f h l (Q : ref -> heap -> Prop) :
  h !! r = Some (OLine l) -> Q (f l) h -> wp (getl r f) h Q.
Proof.
  intros Hr HQ. exists (f l), h. unfold getl. rewrite Hr. split; [reflexivity | exact HQ].
Qed.

Lemma wp_puta r i x h xs (Q : unit -> heap -> Prop) :
  h !! r = Some (OArray xs) ->
  Q tt (<[r := OArray (<[i := x]> xs)]> h) -> wp (puta r i x) h Q.
Proof.
  intros Hr HQ. eexists tt, _. unfold puta. rewrite Hr. split; [reflexivity | exact HQ].
Qed.

Lemma wp_alloc o h (Q : ref -> heap -> Prop) :
  (forall r, h !! r = None -> Q r (<[r := o]> h)) -> wp (alloc o) h Q.
Proof.
  intros HQ. eexists _, _. split; [reflexivity |].
  apply HQ. apply not_elem_of_dom. apply is_fresh.
Qed.

Lemma wp_elim {A} (c : M A) h (Q : A -> heap -> Prop) :
  wp c h Q -> exists a h', c h = Some (a, h') /\ Q a h'.
Proof. exact (fun H => H). Qed.

Lemma falsy_false x : x <> 0 -> falsy x = false.
Proof.
  intros Hx. unfold falsy. destruct (Req_dec_T x 0); [contradiction | reflexivity].
Qed.

Lemma falsy_true_iff x : falsy x = true <-> x = 0.
Proof.
  unfold falsy. destruct (Req_dec_T x 0); split; intros; congruence.
Qed.

Lemma mat3_eta (A : mat3) :
  mk_mat3 (m00 A) (m01 A) (m02 A) (m03 A) (m04 A) (m05 A) (m06 A) (m07 A) (m08 A)
  = A.
Proof. destruct A; reflexivity. Qed.

Lemma vec3_eta (v : Vec3.t) : Vec3.mk (Vec3.x v) (Vec3.y v) (Vec3.z v) = v.
Proof. destruct v; reflexivity. Qed.

(** Symbolic execution: one statement at a time, the reads and writes
    resolved against the heap built so far. *)
Ltac norm_obj :=
  cbv beta iota zeta delta
    [set_m00 set_m01 set_m02 set_m03 set_m04 set_m05 set_m06 set_m07 set_m08
     Vec3.set_x Vec3.set_y Vec3.set_z];
  cbn [m00 m01 m02 m03 m04 m05 m06 m07 m08 Vec3.x Vec3.y Vec3.z s e _type
       default from_option Datatypes.id].

Ltac split_None :=
  repeat match goal with
  | H : <[_ := _]> _ !! _ = None |- _ =>
      apply lookup_insert_None in H; destruct H
  end.

Ltac solve_lookup :=
  repeat first
    [ rewrite lookup_insert_eq
    | rewrite lookup_insert_ne by congruence ];
  rewrite ?mat3_eta, ?vec3_eta;
  first [ reflexivity | eassumption ].

Ltac wp_step :=
  lazymatch goal with
  | |- wp (bind _ _) _ _ => apply wp_bind
  | |- wp (ret _) _ _ => apply wp_ret
  | |- wp (assign _ _ _) _ _ => unfold assign
  | |- wp (get _ _) _ _ => eapply wp_get; [solve_lookup |]
  | |- wp (put _ _ _) _ _ =>
      eapply wp_put; [solve_lookup | rewrite ?insert_insert_eq]
  | |- wp (getv _ _) _ _ => eapply wp_getv; [solve_lookup |]
  | |- wp (putv _ _ _) _ _ =>
      eapply wp_putv; [solve_lookup | rewrite ?insert_insert_eq]
  | |- wp (getl _ _) _ _ => eapply wp_getl; [solve_lookup |]
  | |- wp (puta _ _ _) _ _ =>
      eapply wp_puta; [solve_lookup | rewrite ?insert_insert_eq]
  | |- wp (if decide (_ = _) then _ else _) _ _ =>
      first [ rewrite decide_True by congruence
            | rewrite decide_False by congruence ]
  | |- wp (alloc _) _ _ =>
      apply wp_alloc; let r := fresh "r" in let Hr := fresh "Hr" in
      intros r Hr; split_None
  end; norm_obj.

Ltac wp_run := repeat wp_step.

Lemma identity_spec h out X :
  h !! out = Some (OMat3 X) ->
  wp (Mat3.identity out) h
     (fun r h' => r = out /\ h' = <[out := OMat3 identity_matrix]> h).
Proof.
  intros Ho. unfold Mat3.identity. wp_run. split; reflexivity.
Qed.


Lemma wp_inv {A} (c : M A) h (Q : A -> heap -> Prop) a h' :
  wp c h Q -> c h = Some (a, h') -> Q a h'.
Proof. intros (a0 & h0 & Hc & HQ) Heq. congruence. Qed.

Lemma mat3_eq (a0 a1 a2 a3 a4 a5 a6 a7 a8 b0 b1 b2 b3 b4 b5 b6 b7 b8 : R) :
  a0 = b0 -> a1 = b1 -> a2 = b2 -> a3 = b3 -> a4 = b4 -> a5 = b5 ->
  a6 = b6 -> a7 = b7 -> a8 = b8 ->
  mk_mat3 a0 a1 a2 a3 a4 a5 a6 a7 a8 = mk_mat3 b0 b1 b2 b3 b4 b5 b6 b7 b8.
Proof. intros; subst; reflexivity. Qed.

(** What [determinant] returns, and that it leaves the heap alone. *)
Lemma determinant_spec h a A :
  h !! a = Some (OMat3 A) ->
  wp (Mat3.determinant a) h (fun d h' =>
    h' = h /\
    d = m00 A * (m08 A * m04 A - m05 A * m07 A)
        + m01 A * (- m08 A * m03 A + m05 A * m06 A)
        + m02 A * (m07 A * m03 A - m04 A * m06 A)).
Proof. intros Ha. unfold Mat3.determinant. wp_run. split; reflexivity. Qed.


(** The product in the other order is the identity matrix as well. *)
Lemma inverse_on_the_left
    (h : heap) (a inv out : ref) (A X Y : mat3) (d : R) :
  h !! a = Some (OMat3 A) ->
  h !! inv = Some (OMat3 X) ->
  h !! out = Some (OMat3 Y) ->
  inv <> a ->
  Mat3.determinant a h = Some (d, h) ->
  d <> 0 ->
  exists h1 h2,
    Mat3.invert inv a h = Some (Some inv, h1) /\
    Mat3.multiply out inv a h1 = Some (out, h2) /\
    h2 !! out = Some (OMat3 identity_matrix).
Proof.
  intros Ha Hi Ho Hne Hd Hnz.
  destruct (wp_inv _ _ _ _ _ (determinant_spec h a A Ha) Hd) as [_ Hdet].
  cut (wp (Mat3.invert inv a) h (fun r h1 => r = Some inv /\
         wp (Mat3.multiply out inv a) h1 (fun r2 h2 =>
           r2 = out /\ h2 !! out = Some (OMat3 identity_matrix)))).
  { intros (r & h1 & Hinv & -> & r2 & h2 & Hmul & -> & Hout).
    exists h1, h2. auto. }
  unfold Mat3.invert. wp_run.
  rewrite <- Hdet, (falsy_false d Hnz).
  wp_run. split; [reflexivity |].
  unfold Mat3.multiply.
  destruct (decide (out = inv)) as [-> | Hoi]; wp_run;
    (split; [reflexivity |]); rewrite lookup_insert_eq; do 2 f_equal;
    unfold identity_matrix; clear Hd; subst d; apply mat3_eq; field; exact Hnz.
Qed.


(** ** The routines in binary64 *)

Section Binary64Facts.
Import PrimFloat.
Local Open Scope float_scope.

Lemma binary64_wp_ret {A} (a : A) h (Q : A -> Binary64.heap -> Prop) :
  Q a h -> Binary64.wp (Binary64.ret a) h Q.
Proof. intros HQ. exists a, h. split; [reflexivity | exact HQ]. Qed.

Lemma binary64_wp_bind {A B} (c : Binary64.M A) (k : A -> Binary64.M B) h
    (Q : B -> Binary64.heap -> Prop) :
  Binary64.wp c h (fun a h' => Binary64.wp (k a) h' Q) ->
  Binary64.wp (Binary64.bind c k) h Q.
Proof.
  intros (a & h1 & Hc & b & h2 & Hk & HQ).
  exists b, h2. unfold Binary64.bind. rewrite Hc. split; [exact Hk | exact HQ].
Qed.

Lemma binary64_wp_get r f h m (Q : float -> Binary64.heap -> Prop) :
  h !! r = Some m -> Q (f m) h -> Binary64.wp (Binary64.get r f) h Q.
Proof.
  intros Hr HQ. exists (f m), h. unfold Binary64.get. rewrite Hr.
  split; [reflexivity | exact HQ].
Qed.

Lemma binary64_wp_put r setf v h m (Q : unit -> Binary64.heap -> Prop) :
  h !! r = Some m -> Q tt (<[r := setf v m]> h) ->
  Binary64.wp (Binary64.put r setf v) h Q.
Proof.
  intros Hr HQ. exists tt, (<[r := setf v m]> h). unfold Binary64.put.
  rewrite Hr. split; [reflexivity | exact HQ].
Qed.

Ltac binary64_step :=
  lazymatch goal with
  | |- Binary64.wp (Binary64.bind _ _) _ _ => apply binary64_wp_bind
  | |- Binary64.wp (Binary64.ret _) _ _ => apply binary64_wp_ret
  | |- Binary64.wp (Binary64.get _ _) _ _ =>
      eapply binary64_wp_get; [solve_lookup |]
  | |- Binary64.wp (Binary64.put _ _ _) _ _ =>
      eapply binary64_wp_put; [solve_lookup | rewrite ?insert_insert_eq]
  end.

(** [!det] is true exactly when [det] is zero or [NaN]. *)
Lemma binary64_falsy_iff (d : float) :
  Binary64.falsy d = true <->
  Binary64.is_zero d = true \/ Binary64.is_nan d = true.
Proof. unfold Binary64.falsy. apply orb_true_iff. Qed.

Lemma binary64_wp_inv {A} (c : Binary64.M A) h
    (Q : A -> Binary64.heap -> Prop) a h' :
  Binary64.wp c h Q -> c h = Some (a, h') -> Q a h'.
Proof. intros (a0 & h0 & Hc & HQ) Heq. congruence. Qed.

(** What [determinant] returns, and that it leaves the heap alone. *)
Lemma binary64_determinant_spec h a A :
  h !! a = Some A ->
  Binary64.wp (Binary64.determinant a) h (fun d h' =>
    h' = h /\
    d = Binary64.m00 A * (Binary64.m08 A * Binary64.m04 A
                          - Binary64.m05 A * Binary64.m07 A)
        + Binary64.m01 A * (- Binary64.m08 A * Binary64.m03 A
                            + Binary64.m05 A * Binary64.m06 A)
        + Binary64.m02 A * (Binary64.m07 A * Binary64.m03 A
                            - Binary64.m04 A * Binary64.m06 A)).
Proof.
  intros Ha. unfold Binary64.determinant. repeat binary64_step.
  split; reflexivity.
Qed.

(** [invert] tests the number that [determinant] returns; it returns
    [null] and writes nothing when [!det], and [out] otherwise. *)
Lemma binary64_invert_runs h out a A X :
  h !! a = Some A -> h !! out = Some X ->
  Binary64.wp (Binary64.determinant a) h (fun d _ =>
    Binary64.wp (Binary64.invert out a) h (fun r h' =>
      if Binary64.falsy d then r = None /\ h' = h else r = Some out)).
Proof.
  intros Ha Ho. unfold Binary64.determinant. repeat binary64_step.
  unfold Binary64.invert. do 18 binary64_step. cbv zeta.
  destruct (Binary64.falsy _); repeat binary64_step; auto.
Qed.

Lemma binary64_normalFromMat4_runs h out X (b : Binary64.mat4) :
  h !! out = Some X ->
  Binary64.wp (Binary64.normalFromMat4 out b) h (fun r h' =>
    if Binary64.falsy (Binary64.normalFromMat4_det b)
    then r = None /\ h' = h else r = Some out).
Proof.
  intros Ho. unfold Binary64.normalFromMat4, Binary64.normalFromMat4_det.
  cbv zeta.
  destruct (Binary64.falsy _); repeat binary64_step; auto.
Qed.

(** C2: [invert] returns [null] if and only if the determinant that it
    computes in binary64, which is the number that [determinant] returns,
    is zero or [NaN]; [normalFromMat4] returns [null] if and only if the
    number that it computes as the determinant is zero or [NaN]; otherwise
    they return the output matrix [out]. *)
Theorem null_iff_computed_determinant_zero_or_nan
    (h : Binary64.heap) (out a : ref) (A X : Binary64.mat3)
    (b : Binary64.mat4) :
  h !! a = Some A ->
  h !! out = Some X ->
  (exists d r h',
     Binary64.determinant a h = Some (d, h) /\
     Binary64.invert out a h = Some (r, h') /\
     (r = None <-> Binary64.is_zero d = true \/ Binary64.is_nan d = true) /\
     (r <> None -> r = Some out)) /\
  (exists r h',
     Binary64.normalFromMat4 out b h = Some (r, h') /\
     (r = None <->
        Binary64.is_zero (Binary64.normalFromMat4_det b) = true \/
        Binary64.is_nan (Binary64.normalFromMat4_det b) = true) /\
     (r <> None -> r = Some out)).
Proof.
  intros Ha Ho. split.
  - destruct (binary64_invert_runs h out a A X Ha Ho)
      as (d & h0 & Hd & r & h' & Hinv & Hr).
    assert (h0 = h) as ->.
    { apply (binary64_wp_inv _ _ _ _ _ (binary64_determinant_spec h a A Ha) Hd). }
    exists d, r, h'. split; [exact Hd |]. split; [exact Hinv |].
    rewrite <- binary64_falsy_iff.
    destruct (Binary64.falsy d).
    + destruct Hr as [-> _]. split; [tauto | congruence].
    + subst r. split; [split; discriminate | reflexivity].
  - destruct (binary64_normalFromMat4_runs h out X b Ho)
      as (r & h' & Hn & Hr).
    exists r, h'. split; [exact Hn |].
    rewrite <- binary64_falsy_iff.
    destruct (Binary64.falsy (Binary64.normalFromMat4_det b)).
    + destruct Hr as [-> _]. split; [tauto | congruence].
    + subst r. split; [split; discriminate | reflexivity].
Qed.


(** The determinant of the diagonal matrix with [2^400] on its diagonal
    overflows to [Infinity], which is neither zero nor [NaN]: [invert]
    returns its output, which holds the zero matrix, and the product with
    the matrix is the zero matrix. *)
Lemma inverse_of_huge_diagonal_is_zero :
  exists h1 h2,
    Binary64.determinant 1 (Binary64.heap_of Binary64.huge_diagonal)
      = Some (infinity, Binary64.heap_of Binary64.huge_diagonal) /\
    Binary64.falsy infinity = false /\
    Binary64.invert 2 1 (Binary64.heap_of Binary64.huge_diagonal)
      = Some (Some 2%positive, h1) /\
    h1 !! 2%positive = Some (Binary64.mk_mat3 0 0 0 0 0 0 0 0 0) /\
    Binary64.multiply 3 1 2 h1 = Some (3%positive, h2) /\
    h2 !! 3%positive = Some (Binary64.mk_mat3 0 0 0 0 0 0 0 0 0).
Proof.
  eexists _, _.
  split; [vm_compute; reflexivity |].
  split; [vm_compute; reflexivity |].
  split; [vm_compute; reflexivity |].
  split; [vm_compute; reflexivity |].
  split; vm_compute; reflexivity.
Qed.

(** The matrix [overflowing] has finite fields and its determinant is
    [2^1400].  The number that [determinant] returns for it in binary64 is
    not zero either, it is [NaN]; and [invert] returns [null]. *)
Lemma null_although_determinant_is_not_zero :
  wp (Mat3.determinant 1) (<[1%positive := OMat3 overflowing_exact]> ∅)
     (fun d _ => d = (2 ^ 1400)%R /\ d <> 0%R) /\
  exists d,
    Binary64.determinant 1 (Binary64.heap_of Binary64.overflowing)
      = Some (d, Binary64.heap_of Binary64.overflowing) /\
    Binary64.is_zero d = false /\
    Binary64.is_nan d = true /\
    Binary64.invert 2 1 (Binary64.heap_of Binary64.overflowing)
      = Some (None, Binary64.heap_of Binary64.overflowing).
Proof.
  split.
  - unfold Mat3.determinant, overflowing_exact. wp_run.
    assert (H : (0 < 2 ^ 700)%R) by (apply pow_lt; lra).
    replace (2 ^ 701)%R with (2 * 2 ^ 700)%R by reflexivity.
    replace (2 ^ 1400)%R with (2 ^ 700 * 2 ^ 700)%R
      by (rewrite <- pow_add; reflexivity).
    split; [ring | nra].
  - eexists.
    split; [vm_compute; reflexivity |].
    split; [vm_compute; reflexivity |].
    split; vm_compute; reflexivity.
Qed.

(** The determinant of the diagonal matrix with [2^-400] on its diagonal
    is [2^-1200], not zero; in binary64 it underflows: [determinant]
    returns zero and [invert] returns [null]. *)
Lemma null_on_underflow :
  Binary64.determinant 1 (Binary64.heap_of Binary64.tiny_diagonal)
    = Some (0, Binary64.heap_of Binary64.tiny_diagonal) /\
  Binary64.invert 2 1 (Binary64.heap_of Binary64.tiny_diagonal)
    = Some (None, Binary64.heap_of Binary64.tiny_diagonal).
Proof. split; vm_compute; reflexivity. Qed.

(** The determinant of [singular_integer_mat4] is zero; in binary64
    [normalFromMat4] computes the determinant [64] and returns its
    output. *)
Lemma normalFromMat4_returns_out_on_singular_matrix :
  mat4_determinant singular_integer_mat4_exact = 0%R /\
  Binary64.normalFromMat4_det Binary64.singular_integer_mat4 = 64 /\
  exists h',
    Binary64.normalFromMat4 2 Binary64.singular_integer_mat4
      (Binary64.heap_of Binary64.regular) = Some (Some 2%positive, h').
Proof.
  split.
  { unfold mat4_determinant, det3x3, singular_integer_mat4_exact. ring. }
  split; [vm_compute; reflexivity |].
  eexists. vm_compute. reflexivity.
Qed.

(** On a matrix with determinant [2], [invert] returns its output, which
    holds the inverse. *)
Lemma invert_regular_in_binary64 :
  Binary64.determinant 1 (Binary64.heap_of Binary64.regular)
    = Some (2, Binary64.heap_of Binary64.regular) /\
  Binary64.invert 2 1 (Binary64.heap_of Binary64.regular)
    = Some (Some 2%positive,
            <[2%positive := Binary64.mk_mat3 0.5 0 0 0 1 0 0 0 1]>
              (Binary64.heap_of Binary64.regular)).
Proof. split; vm_compute; reflexivity. Qed.

(** The theorem at a matrix whose determinant underflows and at a matrix
    with determinant [2], with a 4x4 matrix for which the computed
    determinant is [64] and one for which it is zero. *)
Lemma null_iff_computed_determinant_zero_or_nan_witness :
  ((exists d r h',
      Binary64.determinant 1 (Binary64.heap_of Binary64.tiny_diagonal)
        = Some (d, Binary64.heap_of Binary64.tiny_diagonal) /\
      Binary64.invert 2 1 (Binary64.heap_of Binary64.tiny_diagonal)
        = Some (r, h') /\
      (r = None <-> Binary64.is_zero d = true \/ Binary64.is_nan d = true) /\
      (r <> None -> r = Some 2%positive)) /\
   (exists r h',
      Binary64.normalFromMat4 2 Binary64.singular_integer_mat4
        (Binary64.heap_of Binary64.tiny_diagonal) = Some (r, h') /\
      (r = None <->
         Binary64.is_zero
           (Binary64.normalFromMat4_det Binary64.singular_integer_mat4)
           = true \/
         Binary64.is_nan
           (Binary64.normalFromMat4_det Binary64.singular_integer_mat4)
           = true) /\
      (r <> None -> r = Some 2%positive))) /\
  ((exists d r h',
      Binary64.determinant 1 (Binary64.heap_of Binary64.regular)
        = Some (d, Binary64.heap_of Binary64.regular) /\
      Binary64.invert 2 1 (Binary64.heap_of Binary64.regular)
        = Some (r, h') /\
      (r = None <-> Binary64.is_zero d = true \/ Binary64.is_nan d = true) /\
      (r <> None -> r = Some 2%positive)) /\
   (exists r h',
      Binary64.normalFromMat4 2 Binary64.flat_mat4
        (Binary64.heap_of Binary64.regular) = Some (r, h') /\
      (r = None <->
         Binary64.is_zero (Binary64.normalFromMat4_det Binary64.flat_mat4)
           = true \/
         Binary64.is_nan (Binary64.normalFromMat4_det Binary64.flat_mat4)
           = true) /\
      (r <> None -> r = Some 2%positive))).
Proof.
  split.
  - apply (null_iff_computed_determinant_zero_or_nan
             (Binary64.heap_of Binary64.tiny_diagonal) 2 1
             Binary64.tiny_diagonal Binary64.identity_matrix
             Binary64.singular_integer_mat4); reflexivity.
  - apply (null_iff_computed_determinant_zero_or_nan
             (Binary64.heap_of Binary64.regular) 2 1
             Binary64.regular Binary64.identity_matrix
             Binary64.flat_mat4); reflexivity.
Defined.

(** On the matrix [flat_mat4], [normalFromMat4] computes the determinant
    zero and returns [null]. *)
Lemma normalFromMat4_null_in_binary64 :
  Binary64.normalFromMat4_det Binary64.flat_mat4 = 0 /\
  Binary64.normalFromMat4 2 Binary64.flat_mat4
    (Binary64.heap_of Binary64.regular)
    = Some (None, Binary64.heap_of Binary64.regular).
Proof. split; vm_compute; reflexivity. Qed.

End Binary64Facts.







(** Transposing back and forth, whatever the three references are: the
    same matrix, distinct ones, or any mix. *)
Lemma transpose_back_and_forth (h : heap) (a o1 o2 : ref) (A X1 X2 : mat3) :
  h !! a = Some (OMat3 A) ->
  h !! o1 = Some (OMat3 X1) ->
  h !! o2 = Some (OMat3 X2) ->
  wp (t1 <- Mat3.transpose o1 a;; Mat3.transpose o2 t1) h
     (fun r h' => r = o2 /\ h' !! o2 = Some (OMat3 A)).
Proof.
  intros Ha H1 H2. unfold Mat3.transpose.
  destruct (decide (o1 = a)) as [E1 | N1];
    destruct (decide (o2 = o1)) as [E2 | N2];
    destruct (decide (o2 = a)) as [E3 | N3];
    simplify_eq; wp_run; (split; [reflexivity |]); solve_lookup.
Qed.


(** C10: for every matrix [a], transposing in place, [transpose(a, a)],
    gives the same matrix as transposing [a] into a fresh matrix and
    copying the result back into [a]; the two ways leave every object
    that existed before in the same state. *)
Theorem transpose_in_place_agrees (h : heap) (a : ref) (A : mat3) :
  h !! a = Some (OMat3 A) ->
  exists h1 h2,
    Mat3.transpose a a h = Some (a, h1) /\
    (t <- create_default;; Mat3.transpose t a;; Mat3.copy a t) h
      = Some (a, h2) /\
    h1 !! a = h2 !! a /\
    h1 !! a = Some (OMat3 (mk_mat3 (m00 A) (m03 A) (m06 A)
                                   (m01 A) (m04 A) (m07 A)
                                   (m02 A) (m05 A) (m08 A))) /\
    (forall r, is_Some (h !! r) -> h1 !! r = h2 !! r).
Proof.
  intros Ha.
  set (At := mk_mat3 (m00 A) (m03 A) (m06 A) (m01 A) (m04 A) (m07 A)
                     (m02 A) (m05 A) (m08 A)).
  assert (H1 : wp (Mat3.transpose a a) h
                  (fun r h1 => r = a /\ h1 = <[a := OMat3 At]> h)).
  { unfold Mat3.transpose. wp_run. split; reflexivity. }
  assert (H2 : wp (t <- create_default;; Mat3.transpose t a;; Mat3.copy a t) h
                  (fun r h2 => r = a /\ exists t, h !! t = None /\
                     h2 = <[a := OMat3 At]> (<[t := OMat3 At]> h))).
  { unfold create_default, Mat3.create, Mat3.new, Mat3.transpose, Mat3.copy.
    wp_run. split; [reflexivity |]. exists r. split; [assumption |].
    reflexivity. }
  destruct H1 as (r1 & h1 & Hrun1 & -> & ->).
  destruct H2 as (r2 & h2 & Hrun2 & -> & t & Ht & ->).
  exists (<[a := OMat3 At]> h), (<[a := OMat3 At]> (<[t := OMat3 At]> h)).
  split; [exact Hrun1 |]. split; [exact Hrun2 |].
  split; [by rewrite !lookup_insert_eq |].
  split; [by rewrite lookup_insert_eq |].
  intros r [o Hr]. destruct (decide (a = r)) as [-> | Hne].
  - by rewrite !lookup_insert_eq.
  - rewrite !lookup_insert_ne by congruence. reflexivity.
Qed.

(** C6: [determinant] returns [1] on the identity matrix, whether it was
    written by [identity] or made by the default constructor or by
    [create] without arguments. *)
Theorem determinant_of_identity (h : heap) (out : ref) (X : mat3) :
  h !! out = Some (OMat3 X) ->
  (exists d h', (Mat3.identity out;; Mat3.determinant out) h = Some (d, h') /\
                d = 1) /\
  (exists d h', (m <- new_default;; Mat3.determinant m) h = Some (d, h') /\
                d = 1) /\
  (exists d h', (m <- create_default;; Mat3.determinant m) h = Some (d, h') /\
                d = 1).
Proof.
  intros Ho. repeat split.
  - apply wp_elim. unfold Mat3.identity, Mat3.determinant. wp_run. ring.
  - apply wp_elim. unfold new_default, Mat3.new, Mat3.determinant. wp_run. clear. ring.
  - apply wp_elim.
    unfold create_default, Mat3.create, Mat3.new, Mat3.determinant. wp_run.
    clear. ring.
Qed.

(** C7: [mat3.clone] and [line.clone] make an object that is equal to the
    source component by component, and setting the clone afterwards with
    [mat3.set] or [line.set] leaves every object that existed before, the
    original and its end points included, as it was. *)
Theorem clone_is_independent `{Externals}
    (h : heap) (a : ref) (A : mat3)
    (l ps pe : ref) (ty : R) (S E : Vec3.t)
    (v0 v1 v2 v3 v4 v5 v6 v7 v8 : R) (sx sy sz ex ey ez : R) :
  h !! a = Some (OMat3 A) ->
  h !! l = Some (OLine (mk_line ty ps pe)) ->
  h !! ps = Some (OVec3 S) ->
  h !! pe = Some (OVec3 E) ->
  (exists c h1 h2,
     Mat3.clone a h = Some (c, h1) /\
     c <> a /\
     h1 !! c = Some (OMat3 A) /\
     h1 !! a = Some (OMat3 A) /\
     Mat3.set c v0 v1 v2 v3 v4 v5 v6 v7 v8 h1 = Some (c, h2) /\
     h2 !! c = Some (OMat3 (mk_mat3 v0 v1 v2 v3 v4 v5 v6 v7 v8)) /\
     (forall r, is_Some (h !! r) -> h2 !! r = h !! r)) /\
  (exists c h1 h2 cs ce,
     Line.clone l h = Some (c, h1) /\
     c <> l /\
     h1 !! c = Some (OLine (mk_line SHAPE_LINE cs ce)) /\
     h1 !! cs = Some (OVec3 S) /\
     h1 !! ce = Some (OVec3 E) /\
     h !! cs = None /\ h !! ce = None /\ cs <> ce /\
     (forall r, is_Some (h !! r) -> h1 !! r = h !! r) /\
     Line.set c sx sy sz ex ey ez h1 = Some (c, h2) /\
     h2 !! c = Some (OLine (mk_line SHAPE_LINE cs ce)) /\
     h2 !! cs = Some (OVec3 (Vec3.mk sx sy sz)) /\
     h2 !! ce = Some (OVec3 (Vec3.mk ex ey ez)) /\
     (forall r, is_Some (h !! r) -> h2 !! r = h !! r)).
Proof.
  intros Ha Hl Hs He. split.
  - cut (wp (Mat3.clone a) h (fun c h1 =>
           (c <> a /\ h1 !! c = Some (OMat3 A) /\ h1 !! a = Some (OMat3 A)) /\
           wp (Mat3.set c v0 v1 v2 v3 v4 v5 v6 v7 v8) h1 (fun c' h2 =>
             c' = c /\
             h2 !! c = Some (OMat3 (mk_mat3 v0 v1 v2 v3 v4 v5 v6 v7 v8)) /\
             (forall r, is_Some (h !! r) -> h2 !! r = h !! r)))).
    { intros (c & h1 & Hc & (? & ? & ?) & c' & h2 & Hset & -> & ? & ?).
      exists c, h1, h2. auto 10. }
    unfold Mat3.clone, Mat3.new. wp_run.
    split; [split; [congruence | split; solve_lookup] |].
    unfold Mat3.set. wp_run.
    split; [reflexivity |]. split; [solve_lookup |].
    intros q [o Hq]. rewrite lookup_insert_ne by congruence. reflexivity.
  - cut (wp (Line.clone l) h (fun c h1 => exists cs ce,
           (c <> l /\
            h1 !! c = Some (OLine (mk_line SHAPE_LINE cs ce)) /\
            h1 !! cs = Some (OVec3 S) /\ h1 !! ce = Some (OVec3 E) /\
            h !! cs = None /\ h !! ce = None /\ cs <> ce /\
            (forall r, is_Some (h !! r) -> h1 !! r = h !! r)) /\
           wp (Line.set c sx sy sz ex ey ez) h1 (fun c' h2 =>
             c' = c /\
             h2 !! c = Some (OLine (mk_line SHAPE_LINE cs ce)) /\
             h2 !! cs = Some (OVec3 (Vec3.mk sx sy sz)) /\
             h2 !! ce = Some (OVec3 (Vec3.mk ex ey ez)) /\
             (forall r, is_Some (h !! r) -> h2 !! r = h !! r)))).
    { intros (c & h1 & Hc & cs & ce & (? & ? & ? & ? & ? & ? & ? & ?)
              & c' & h2 & Hset & -> & ? & ? & ? & ?).
      exists c, h1, h2, cs, ce. auto 20. }
    unfold Line.clone, Line.new, Line.get_coord, vec3_create. wp_run.
    exists r, r0.
    split.
    { split; [congruence |]. split; [solve_lookup |].
      split; [solve_lookup |]. split; [solve_lookup |].
      split; [assumption |]. split; [assumption |]. split; [congruence |].
      intros q [o Hq]. rewrite !lookup_insert_ne by congruence. reflexivity. }
    unfold Line.set, Line.put_coord. wp_run.
    split; [reflexivity |]. split; [solve_lookup |].
    split; [solve_lookup |]. split; [solve_lookup |].
    intros q [o Hq]. rewrite !lookup_insert_ne by congruence. reflexivity.
Qed.

Lemma wp_vec3_distance h a b A B (Q : R -> heap -> Prop) :
  h !! a = Some (OVec3 A) -> h !! b = Some (OVec3 B) ->
  Q (sqrt ((Vec3.x B - Vec3.x A) * (Vec3.x B - Vec3.x A)
           + (Vec3.y B - Vec3.y A) * (Vec3.y B - Vec3.y A)
           + (Vec3.z B - Vec3.z A) * (Vec3.z B - Vec3.z A))) h ->
  wp (vec3_distance a b) h Q.
Proof. intros Ha Hb HQ. unfold vec3_distance. wp_run. exact HQ. Qed.

(** C5: for every line [L], [magnitude] returns the Euclidean distance
    between the start point and the end point of [L]; the value is not
    negative, and [mag] returns the same value. *)
Theorem magnitude_is_distance
    (h : heap) (l ps pe : ref) (ty : R) (S E : Vec3.t) :
  h !! l = Some (OLine (mk_line ty ps pe)) ->
  h !! ps = Some (OVec3 S) ->
  h !! pe = Some (OVec3 E) ->
  exists d,
    Line.magnitude l h = Some (d, h) /\
    vec3_distance ps pe h = Some (d, h) /\
    d = sqrt ((Vec3.x E - Vec3.x S) ^ 2 + (Vec3.y E - Vec3.y S) ^ 2
              + (Vec3.z E - Vec3.z S) ^ 2) /\
    0 <= d /\
    Line.mag l h = Some (d, h).
Proof.
  intros Hl Hs He.
  assert (Hm : wp (Line.magnitude l) h (fun d h' => h' = h /\
            d = sqrt ((Vec3.x E - Vec3.x S) * (Vec3.x E - Vec3.x S)
                      + (Vec3.y E - Vec3.y S) * (Vec3.y E - Vec3.y S)
                      + (Vec3.z E - Vec3.z S) * (Vec3.z E - Vec3.z S)))).
  { unfold Line.magnitude. wp_run.
    eapply wp_vec3_distance; [eassumption | eassumption |].
    split; reflexivity. }
  assert (Hd : wp (vec3_distance ps pe) h (fun d h' => h' = h /\
            d = sqrt ((Vec3.x E - Vec3.x S) * (Vec3.x E - Vec3.x S)
                      + (Vec3.y E - Vec3.y S) * (Vec3.y E - Vec3.y S)
                      + (Vec3.z E - Vec3.z S) * (Vec3.z E - Vec3.z S)))).
  { eapply wp_vec3_distance; [eassumption | eassumption |].
    split; reflexivity. }
  destruct Hm as (d & h' & Hm & -> & Hdm).
  destruct Hd as (d' & h' & Hd & -> & Hdd).
  exists d. split; [exact Hm |]. split; [congruence |].
  split; [| split].
  - rewrite Hdm. f_equal. clear. ring.
  - rewrite Hdm. apply sqrt_pos.
  - exact Hm.
Qed.

(** C8: a line constructed without arguments goes from [(0, 0, 0)] to
    [(0, 0, -1)], two different points, and has magnitude [1]; a [mat3]
    constructed without arguments, or made by [create] without arguments,
    is the identity matrix. *)
Theorem default_construction `{Externals} (h : heap) :
  (exists l h' ps pe,
     new_line_default h = Some (l, h') /\
     h' !! l = Some (OLine (mk_line SHAPE_LINE ps pe)) /\
     h' !! ps = Some (OVec3 (Vec3.mk 0 0 0)) /\
     h' !! pe = Some (OVec3 (Vec3.mk 0 0 (-1))) /\
     Vec3.mk 0 0 0 <> Vec3.mk 0 0 (-1) /\
     exists d, Line.magnitude l h' = Some (d, h') /\ d = 1) /\
  (exists m h',
     new_default h = Some (m, h') /\
     h' !! m = Some (OMat3 identity_matrix) /\
     Mat3.identity m h' = Some (m, h')) /\
  (exists m h',
     create_default h = Some (m, h') /\
     h' !! m = Some (OMat3 identity_matrix) /\
     Mat3.identity m h' = Some (m, h')).
Proof.
  assert (Hid : forall (h' : heap) m,
            h' !! m = Some (OMat3 identity_matrix) ->
            Mat3.identity m h' = Some (m, h')).
  { intros h' m Hm.
    destruct (identity_spec h' m _ Hm) as (r & h'' & Hrun & -> & ->).
    rewrite Hrun. rewrite insert_id by exact Hm. reflexivity. }
  repeat split.
  - cut (wp new_line_default h (fun l h' => exists ps pe,
           h' !! l = Some (OLine (mk_line SHAPE_LINE ps pe)) /\
           h' !! ps = Some (OVec3 (Vec3.mk 0 0 0)) /\
           h' !! pe = Some (OVec3 (Vec3.mk 0 0 (-1))) /\
           wp (Line.magnitude l) h' (fun d h'' => h'' = h' /\ d = 1))).
    { intros (l & h' & Hrun & ps & pe & ? & ? & ? & d & h'' & Hm & -> & ->).
      exists l, h', ps, pe.
      repeat (split; [assumption |]).
      split; [intros [=]; lra | exists 1; auto]. }
    unfold new_line_default, Line.new, vec3_create. wp_run.
    exists r, r0. split; [solve_lookup |]. split; [solve_lookup |].
    split; [solve_lookup |].
    unfold Line.magnitude. wp_run.
    eapply wp_vec3_distance; [solve_lookup | solve_lookup |].
    split; [reflexivity |]. cbn [Vec3.x Vec3.y Vec3.z].
    replace ((0 - 0) * (0 - 0) + (0 - 0) * (0 - 0) + (-1 - 0) * (-1 - 0))
      with 1 by (clear; ring).
    apply sqrt_1.
  - cut (wp new_default h
           (fun m h' => h' !! m = Some (OMat3 identity_matrix))).
    { intros (m & h' & Hrun & Hm). exists m, h'. auto. }
    unfold new_default, Mat3.new. wp_run. solve_lookup.
  - cut (wp create_default h
           (fun m h' => h' !! m = Some (OMat3 identity_matrix))).
    { intros (m & h' & Hrun & Hm). exists m, h'. auto. }
    unfold create_default, Mat3.create, Mat3.new. wp_run. solve_lookup.
Qed.

(** ** Totality *)

Lemma keeps_refl h : keeps h h.
Proof. intros r o Hr. exists o. split; [exact Hr | reflexivity]. Qed.

Lemma keeps_insert h0 h r o o' :
  keeps h0 h -> h !! r = Some o -> kind_of o' = kind_of o ->
  keeps h0 (<[r := o']> h).
Proof.
  intros Hk Hr Hkind q oq Hq. destruct (Hk q oq Hq) as (o1 & Ho1 & Hk1).
  destruct (decide (r = q)) as [-> | Hne].
  - exists o'. rewrite lookup_insert_eq. split; [reflexivity | congruence].
  - exists o1. rewrite lookup_insert_ne by exact Hne. split; assumption.
Qed.

Lemma keeps_alloc h0 h r o :
  keeps h0 h -> h !! r = None -> keeps h0 (<[r := o]> h).
Proof.
  intros Hk Hr q oq Hq. destruct (Hk q oq Hq) as (o1 & Ho1 & Hk1).
  exists o1. rewrite lookup_insert_ne by congruence. split; assumption.
Qed.

Lemma keeps_mat3 h0 h r :
  keeps h0 h -> is_mat3 h0 r = true -> exists m, h !! r = Some (OMat3 m).
Proof.
  unfold is_mat3. intros Hk Hr.
  destruct (h0 !! r) as [[] |] eqn:E; try discriminate.
  destruct (Hk r _ E) as ([] & Ho & Hkind); try discriminate. eauto.
Qed.

Lemma keeps_vec3 h0 h r :
  keeps h0 h -> is_vec3 h0 r = true -> exists v, h !! r = Some (OVec3 v).
Proof.
  unfold is_vec3. intros Hk Hr.
  destruct (h0 !! r) as [[] |] eqn:E; try discriminate.
  destruct (Hk r _ E) as ([] & Ho & Hkind); try discriminate. eauto.
Qed.

Lemma keeps_array h0 h r :
  keeps h0 h -> is_array h0 r = true -> exists xs, h !! r = Some (OArray xs).
Proof.
  unfold is_array. intros Hk Hr.
  destruct (h0 !! r) as [[] |] eqn:E; try discriminate.
  destruct (Hk r _ E) as ([] & Ho & Hkind); try discriminate. eauto.
Qed.

Lemma keeps_line h0 h r l :
  keeps h0 h -> h0 !! r = Some (OLine l) -> h !! r = Some (OLine l).
Proof.
  intros Hk Hr. destruct (Hk r _ Hr) as ([] & Ho & Hkind); try discriminate.
  cbn in Hkind. congruence.
Qed.

Lemma is_line_inv h r :
  is_line h r = true ->
  exists l, h !! r = Some (OLine l) /\
            is_vec3 h (s l) = true /\ is_vec3 h (e l) = true.
Proof.
  unfold is_line. destruct (h !! r) as [[] |]; try discriminate.
  intros [? ?]%andb_true_iff. eauto.
Qed.

Section Runs.
Context {A B : Type} (h0 : heap).

Lemma runs_ret (a : A) (Q : A -> Prop) : Q a -> runs h0 (ret a) Q.
Proof. intros HQ h Hk. apply wp_ret. split; assumption. Qed.

Lemma runs_bind (c : M A) (k : A -> M B) (Q1 : A -> Prop) (Q : B -> Prop) :
  runs h0 c Q1 -> (forall a, Q1 a -> runs h0 (k a) Q) -> runs h0 (bind c k) Q.
Proof.
  intros Hc Hk h Hkeep. apply wp_bind.
  eapply wp_mono; [apply Hc; exact Hkeep |].
  intros a h' [Hkeep' HQ1]. apply Hk; assumption.
Qed.

Lemma runs_weaken (c : M A) (Q Q' : A -> Prop) :
  runs h0 c Q -> (forall a, Q a -> Q' a) -> runs h0 c Q'.
Proof.
  intros Hc HQ h Hkeep. eapply wp_mono; [apply Hc; exact Hkeep |].
  intros a h' [? ?]. split; auto.
Qed.

Lemma runs_then (c : M A) (k : A -> M B) (Q : B -> Prop) :
  runs h0 c (fun _ => True) -> (forall a, runs h0 (k a) Q) ->
  runs h0 (bind c k) Q.
Proof. intros Hc Hk. eapply runs_bind; [exact Hc | intros a _; apply Hk]. Qed.
End Runs.

Lemma runs_get h0 r f :
  is_mat3 h0 r = true -> runs h0 (get r f) (fun _ => True).
Proof.
  intros Hr h Hk. destruct (keeps_mat3 _ _ _ Hk Hr) as [m Hm].
  eapply wp_get; [exact Hm | auto].
Qed.

Lemma runs_put h0 r setf v :
  is_mat3 h0 r = true -> runs h0 (put r setf v) (fun _ => True).
Proof.
  intros Hr h Hk. destruct (keeps_mat3 _ _ _ Hk Hr) as [m Hm].
  eapply wp_put; [exact Hm |].
  split; [| exact I]. eapply keeps_insert; [exact Hk | exact Hm | reflexivity].
Qed.

Lemma runs_getv h0 r f :
  is_vec3 h0 r = true -> runs h0 (getv r f) (fun _ => True).
Proof.
  intros Hr h Hk. destruct (keeps_vec3 _ _ _ Hk Hr) as [m Hm].
  eapply wp_getv; [exact Hm | auto].
Qed.

Lemma runs_putv h0 r setf v :
  is_vec3 h0 r = true -> runs h0 (putv r setf v) (fun _ => True).
Proof.
  intros Hr h Hk. destruct (keeps_vec3 _ _ _ Hk Hr) as [m Hm].
  eapply wp_putv; [exact Hm |].
  split; [| exact I]. eapply keeps_insert; [exact Hk | exact Hm | reflexivity].
Qed.

Lemma runs_puta h0 r i v :
  is_array h0 r = true -> runs h0 (puta r i v) (fun _ => True).
Proof.
  intros Hr h Hk. destruct (keeps_array _ _ _ Hk Hr) as [m Hm].
  eapply wp_puta; [exact Hm |].
  split; [| exact I]. eapply keeps_insert; [exact Hk | exact Hm | reflexivity].
Qed.

Lemma runs_getl h0 r f l :
  h0 !! r = Some (OLine l) -> runs h0 (getl r f) (fun p => p = f l).
Proof.
  intros Hr h Hk. eapply wp_getl; [eapply keeps_line; eassumption |].
  split; [exact Hk | reflexivity].
Qed.

Lemma runs_alloc h0 o : runs h0 (alloc o) (fun _ => True).
Proof.
  intros h Hk. apply wp_alloc. intros r Hr.
  split; [| exact I]. apply keeps_alloc; assumption.
Qed.

(** One statement of a program that only has to be shown to return. *)
Ltac runs_step :=
  lazymatch goal with
  | |- runs _ (bind (getl _ _) _) _ =>
      eapply runs_bind; [eapply runs_getl; eassumption | intros ? ->]
  | |- runs _ (bind _ _) _ => apply runs_then; [| intros ?]
  | |- runs _ (ret _) _ => apply runs_ret; try exact I
  | |- runs _ (assign _ _ _) _ => unfold assign
  | |- runs _ (get _ _) _ => apply runs_get; assumption
  | |- runs _ (put _ _ _) _ => apply runs_put; assumption
  | |- runs _ (getv _ _) _ => apply runs_getv; assumption
  | |- runs _ (putv _ _ _) _ => apply runs_putv; assumption
  | |- runs _ (puta _ _ _) _ => apply runs_puta; assumption
  | |- runs _ (alloc _) _ => apply runs_alloc
  | |- runs _ (if ?b then _ else _) _ => destruct b
  | |- runs _ (match ?x with Some _ => _ | None => _ end) _ => destruct x
  end.

Ltac runs_auto := cbv zeta; repeat (runs_step; cbv zeta).

Create HintDb ops.

#[local] Hint Unfold
  vec3_create vec3_copy vec3_distance readv writev
  Mat3.new Mat3.create Mat3.clone Mat3.copy Mat3.set Mat3.identity
  Mat3.transpose Mat3.adjoint Mat3.determinant Mat3.multiply Mat3.mul
  Mat3.translate Mat3.rotate Mat3.scale Mat3.fromMat4 Mat3.fromTranslation
  Mat3.fromRotation Mat3.fromScaling Mat3.fromMat2d Mat3.fromQuat
  Mat3.array Mat3.frob Mat3.add Mat3.subtract Mat3.sub
  Mat3.multiplyScalar Mat3.multiplyScalarAndAdd Mat3.exactEquals
  Mat3.and_then
  Line.get_coord Line.put_coord Line.create Line.copy
  Line.fromPoints Line.set Line.magnitude Line.mag
  ref_result num_result bool_result string_result : ops.

Lemma runs_vec3_sqrMag `{Externals} h0 a :
  is_vec3 h0 a = true -> runs h0 (vec3_sqrMag a) (fun _ => True).
Proof. intros Ha. unfold vec3_sqrMag, readv. runs_auto. Qed.

Lemma runs_vec3_cross `{Externals} h0 out a b :
  is_vec3 h0 out = true -> is_vec3 h0 a = true -> is_vec3 h0 b = true ->
  runs h0 (vec3_cross out a b) (fun r => r = out).
Proof.
  intros Ho Ha Hb. unfold vec3_cross, readv, writev. runs_auto. reflexivity.
Qed.

Lemma runs_vec3_normalize `{Externals} h0 out a :
  is_vec3 h0 out = true -> is_vec3 h0 a = true ->
  runs h0 (vec3_normalize out a) (fun _ => True).
Proof. intros Ho Ha. unfold vec3_normalize, readv, writev. runs_auto. Qed.

Lemma fromViewUp_init_typed h :
  wp Mat3.fromViewUp_init h (fun env h' =>
    keeps h h' /\
    is_vec3 h' (Mat3.default_up env) = true /\
    is_vec3 h' (Mat3.scratch_x env) = true /\
    is_vec3 h' (Mat3.scratch_y env) = true /\
    Mat3.scratch_x env <> Mat3.scratch_y env).
Proof.
  unfold Mat3.fromViewUp_init, vec3_create. wp_run.
  cbn [Mat3.default_up Mat3.scratch_x Mat3.scratch_y]. unfold is_vec3.
  split.
  { repeat apply keeps_alloc; try apply keeps_refl; try assumption;
      rewrite ?lookup_insert_ne by congruence; assumption. }
  split; [by rewrite !lookup_insert_ne, lookup_insert_eq by congruence |].
  split; [by rewrite !lookup_insert_ne, lookup_insert_eq by congruence |].
  split; [by rewrite lookup_insert_eq | congruence].
Qed.

Lemma runs_fromViewUp `{Externals} h0 env out view up :
  well_typed h0 (mat3_fromViewUp env out view up) = true ->
  runs h0 (Mat3.fromViewUp env out view up) (fun _ => True).
Proof.
  cbn [well_typed]. rewrite !andb_true_iff.
  intros (((((Hd & Hx) & Hy) & Ho) & Hv) & Hu).
  assert (Hup : is_vec3 h0 (default (Mat3.default_up env) up) = true)
    by (destruct up; assumption).
  unfold Mat3.fromViewUp. cbv zeta.
  apply runs_then; [apply runs_vec3_sqrMag; assumption | intros sq].
  destruct (num_lt sq _); [autounfold with ops; runs_auto |].
  eapply runs_bind; [apply runs_vec3_cross; assumption | intros c ->].
  apply runs_then; [apply runs_vec3_normalize; assumption | intros _].
  apply runs_then; [apply runs_vec3_sqrMag; assumption | intros sq'].
  destruct (num_lt sq' _); [autounfold with ops; runs_auto |].
  apply runs_then;
    [eapply runs_weaken; [apply runs_vec3_cross; assumption | auto] | intros _].
  autounfold with ops. runs_auto.
Qed.

Lemma runs_line_new `{Externals} h0 sx sy sz ex ey ez :
  runs h0 (Line.new sx sy sz ex ey ez) (fun _ => True).
Proof. unfold Line.new, vec3_create. runs_auto. Qed.

(** C4: every operation of the two libraries other than [invert] and
    [normalFromMat4] is total: on arguments of the expected classes it
    returns, and what it returns is never [null]. *)
Theorem other_operations_are_total `{Externals} (c : call) (h : heap) :
  has_null_branch c = false ->
  well_typed h c = true ->
  exists v h', exec c h = Some (v, h') /\ v <> VNull.
Proof.
  intros Hnb Hwt.
  cut (runs h (exec c) (fun v => v <> VNull)).
  { intros Hr. destruct (Hr h (keeps_refl h)) as (v & h' & Hrun & _ & Hv).
    exists v, h'. split; assumption. }
  destruct c; try discriminate Hnb; cbn [exec];
    try (unfold ref_result;
         eapply runs_then; [apply runs_fromViewUp; exact Hwt |];
         intros; runs_auto; discriminate);
    cbn [well_typed] in Hwt; rewrite ?andb_true_iff in Hwt;
    repeat match goal with
           | H : _ /\ _ |- _ => destruct H
           | H : is_line _ _ = true |- _ =>
               apply is_line_inv in H; destruct H as (? & ? & ? & ?)
           end.
  all: autounfold with ops;
       try (unfold Mat3.str, Mat3.equals, Line.clone, Line.new);
       autounfold with ops; runs_auto; try discriminate.
Qed.

(** ** The definitions at work *)

Ltac norm_example :=
  unfold example_matrix, singular_matrix, identity_matrix; norm_obj.

(** The inverse of the diagonal matrix [(2, 1, 1)]. *)
Example invert_example :
  exists h',
    Mat3.invert 2 1 example_heap = Some (Some 2%positive, h') /\
    h' !! 2%positive = Some (OMat3 (mk_mat3 (1 / 2) 0 0 0 1 0 0 0 1)).
Proof.
  cut (wp (Mat3.invert 2 1) example_heap (fun r h' =>
         r = Some 2%positive /\
         h' !! 2%positive = Some (OMat3 (mk_mat3 (1 / 2) 0 0 0 1 0 0 0 1)))).
  { intros (r & h' & Hrun & -> & Hh). exists h'. auto. }
  unfold Mat3.invert. wp_run. norm_example.
  rewrite falsy_false by lra. wp_run.
  split; [reflexivity |]. rewrite lookup_insert_eq. do 2 f_equal.
  apply mat3_eq; field; lra.
Qed.

(** A singular matrix: [null], and nothing is written. *)
Example invert_singular_example :
  Mat3.invert 2 3 example_heap = Some (None, example_heap).
Proof.
  cut (wp (Mat3.invert 2 3) example_heap
          (fun r h' => r = None /\ h' = example_heap)).
  { intros (r & h' & Hrun & -> & ->). exact Hrun. }
  unfold Mat3.invert. wp_run. norm_example.
  replace (falsy _) with true by (symmetry; apply falsy_true_iff; lra).
  wp_run. split; reflexivity.
Qed.

(** In-place transposition of the matrix at [3]. *)
Example transpose_in_place_example :
  exists h',
    Mat3.transpose 3 3 example_heap = Some (3%positive, h') /\
    h' !! 3%positive = Some (OMat3 (mk_mat3 1 2 0 2 4 0 3 6 1)).
Proof.
  cut (wp (Mat3.transpose 3 3) example_heap (fun r h' =>
         r = 3%positive /\
         h' !! 3%positive = Some (OMat3 (mk_mat3 1 2 0 2 4 0 3 6 1)))).
  { intros (r & h' & Hrun & -> & Hh). exists h'. auto. }
  unfold Mat3.transpose. wp_run. norm_example.
  split; [reflexivity | apply lookup_insert_eq].
Qed.

(** The end points are copied one after the other: with the line's own
    end points as arguments, in reverse, both ends become the old end
    point. *)
Example fromPoints_aliased_example :
  exists h',
    Line.fromPoints 6 5 4 example_heap = Some (6%positive, h') /\
    h' !! 4%positive = Some (OVec3 (Vec3.mk 3 4 0)) /\
    h' !! 5%positive = Some (OVec3 (Vec3.mk 3 4 0)).
Proof.
  cut (wp (Line.fromPoints 6 5 4) example_heap (fun r h' =>
         r = 6%positive /\
         h' !! 4%positive = Some (OVec3 (Vec3.mk 3 4 0)) /\
         h' !! 5%positive = Some (OVec3 (Vec3.mk 3 4 0)))).
  { intros (r & h' & Hrun & -> & ? & ?). exists h'. auto. }
  unfold Line.fromPoints, vec3_copy. wp_run.
  split; [reflexivity |]. split; solve_lookup.
Qed.

(** [array] with an offset writes nine consecutive elements. *)
Example array_example :
  exists h' xs,
    Mat3.array 7 1 (Some 3%nat) example_heap_with_array
      = Some (7%positive, h') /\
    h' !! 7%positive = Some (OArray xs) /\
    xs !! 2%nat = None /\ xs !! 3%nat = Some 2 /\ xs !! 11%nat = Some 1 /\
    xs !! 12%nat = None.
Proof.
  cut (wp (Mat3.array 7 1 (Some 3%nat)) example_heap_with_array
          (fun r h' => r = 7%positive /\ exists xs,
             h' !! 7%positive = Some (OArray xs) /\
             xs !! 2%nat = None /\ xs !! 3%nat = Some 2 /\
             xs !! 11%nat = Some 1 /\ xs !! 12%nat = None)).
  { intros (r & h' & Hrun & -> & xs & ?). exists h', xs. auto. }
  unfold Mat3.array. wp_run. norm_example.
  split; [reflexivity |]. eexists. split; [apply lookup_insert_eq |].
  repeat split; reflexivity.
Qed.

(** The line from [(0, 0, 0)] to [(3, 4, 0)] has length five. *)
Example magnitude_example :
  exists d, Line.magnitude 6 example_heap = Some (d, example_heap) /\ d = 5.
Proof.
  cut (wp (Line.magnitude 6) example_heap
          (fun d h' => h' = example_heap /\ d = 5)).
  { intros (d & h' & Hrun & -> & ->). exists 5. auto. }
  unfold Line.magnitude. wp_run.
  eapply wp_vec3_distance; [reflexivity | reflexivity |].
  split; [reflexivity |]. norm_example.
  replace ((3 - 0) * (3 - 0) + (4 - 0) * (4 - 0) + (0 - 0) * (0 - 0))
    with (5 * 5) by lra.
  apply sqrt_square. lra.
Qed.

(** ** The theorems at concrete inputs *)


Lemma singular_determinant :
  Mat3.determinant 3 example_heap = Some (0, example_heap).
Proof.
  destruct (determinant_spec example_heap 3 singular_matrix eq_refl)
    as (d & h' & Hrun & -> & ->).
  rewrite Hrun. do 2 f_equal. cbn. lra.
Qed.

Lemma singular_mat4_determinant : mat4_determinant singular_mat4 = 0.
Proof. unfold mat4_determinant, det3x3, singular_mat4. ring. Qed.



Lemma other_operations_are_total_witness :
  exists v h',
    @exec example_externals (mat3_multiply 2 1 3) example_heap = Some (v, h') /\
    v <> VNull.
Proof.
  apply (@other_operations_are_total example_externals
           (mat3_multiply 2 1 3) example_heap); reflexivity.
Defined.

Lemma magnitude_is_distance_witness :
  exists d,
    Line.magnitude 6 example_heap = Some (d, example_heap) /\
    vec3_distance 4 5 example_heap = Some (d, example_heap) /\
    d = sqrt ((3 - 0) ^ 2 + (4 - 0) ^ 2 + (0 - 0) ^ 2) /\
    0 <= d /\
    Line.mag 6 example_heap = Some (d, example_heap).
Proof.
  apply (magnitude_is_distance example_heap 6 4 5 2
           (Vec3.mk 0 0 0) (Vec3.mk 3 4 0)); reflexivity.
Defined.

Lemma determinant_of_identity_witness :
  (exists d h', (Mat3.identity 3;; Mat3.determinant 3) example_heap
                = Some (d, h') /\ d = 1) /\
  (exists d h', (m <- new_default;; Mat3.determinant m) example_heap
                = Some (d, h') /\ d = 1) /\
  (exists d h', (m <- create_default;; Mat3.determinant m) example_heap
                = Some (d, h') /\ d = 1).
Proof.
  apply (determinant_of_identity example_heap 3 singular_matrix). reflexivity.
Defined.

Lemma clone_is_independent_witness :
  (exists c h1 h2,
     Mat3.clone 1 example_heap = Some (c, h1) /\
     c <> 1%positive /\
     h1 !! c = Some (OMat3 example_matrix) /\
     h1 !! 1%positive = Some (OMat3 example_matrix) /\
     Mat3.set c 9 8 7 6 5 4 3 2 1 h1 = Some (c, h2) /\
     h2 !! c = Some (OMat3 (mk_mat3 9 8 7 6 5 4 3 2 1)) /\
     (forall r, is_Some (example_heap !! r) -> h2 !! r = example_heap !! r)) /\
  (exists c h1 h2 cs ce,
     @Line.clone example_externals 6 example_heap = Some (c, h1) /\
     c <> 6%positive /\
     h1 !! c = Some (OLine (mk_line 2 cs ce)) /\
     h1 !! cs = Some (OVec3 (Vec3.mk 0 0 0)) /\
     h1 !! ce = Some (OVec3 (Vec3.mk 3 4 0)) /\
     example_heap !! cs = None /\ example_heap !! ce = None /\ cs <> ce /\
     (forall r, is_Some (example_heap !! r) -> h1 !! r = example_heap !! r) /\
     Line.set c 1 1 1 2 2 2 h1 = Some (c, h2) /\
     h2 !! c = Some (OLine (mk_line 2 cs ce)) /\
     h2 !! cs = Some (OVec3 (Vec3.mk 1 1 1)) /\
     h2 !! ce = Some (OVec3 (Vec3.mk 2 2 2)) /\
     (forall r, is_Some (example_heap !! r) -> h2 !! r = example_heap !! r)).
Proof.
  apply (@clone_is_independent example_externals example_heap
           1 example_matrix 6 4 5 2 (Vec3.mk 0 0 0) (Vec3.mk 3 4 0)
           9 8 7 6 5 4 3 2 1 1 1 1 2 2 2); reflexivity.
Defined.


Lemma transpose_in_place_agrees_witness :
  exists h1 h2,
    Mat3.transpose 3 3 example_heap = Some (3%positive, h1) /\
    (t <- create_default;; Mat3.transpose t 3;; Mat3.copy 3 t) example_heap
      = Some (3%positive, h2) /\
    h1 !! 3%positive = h2 !! 3%positive /\
    h1 !! 3%positive = Some (OMat3 (mk_mat3 1 2 0 2 4 0 3 6 1)) /\
    (forall r, is_Some (example_heap !! r) -> h1 !! r = h2 !! r).
Proof.
  apply (transpose_in_place_agrees example_heap 3 singular_matrix). reflexivity.
Defined.

(** ** Further properties of [mat3] *)






(** X7: the transpose of a product is the product of the transposes in
    reverse order. *)
Theorem transpose_of_product
    (h : heap) (a b ta tb p q : ref) (A B TA TB P Q : mat3) :
  h !! a = Some (OMat3 A) -> h !! b = Some (OMat3 B) ->
  h !! ta = Some (OMat3 TA) -> h !! tb = Some (OMat3 TB) ->
  h !! p = Some (OMat3 P) -> h !! q = Some (OMat3 Q) ->
  NoDup [a; b; ta; tb; p; q] ->
  wp (Mat3.multiply p a b;; Mat3.transpose p p) h (fun r1 h1 =>
    wp (Mat3.transpose ta a;; Mat3.transpose tb b;; Mat3.multiply q tb ta) h
       (fun r2 h2 => r1 = p /\ r2 = q /\ h1 !! p = h2 !! q)).
Proof.
  intros Ha Hb Hta Htb Hp Hq Hnd.
  repeat match goal with
         | H : NoDup (_ :: _) |- _ =>
             apply NoDup_cons in H; destruct H as [? H]
         end.
  repeat match goal with
         | H : _ ∉ _ :: _ |- _ => apply not_elem_of_cons in H; destruct H
         end.
  unfold Mat3.multiply, Mat3.transpose. wp_run.
  split; [reflexivity |]. split; [reflexivity |].
  rewrite !lookup_insert_eq. do 2 f_equal.
  apply mat3_eq; ring.
Qed.


(** X10: [multiply] reads both operands before it writes: the product
    written over the first operand, over the second operand, or the
    square written over its only operand, is the product written to a
    separate matrix. *)
Theorem multiply_in_place
    (h : heap) (a b out : ref) (A B X : mat3) :
  h !! a = Some (OMat3 A) -> h !! b = Some (OMat3 B) ->
  h !! out = Some (OMat3 X) ->
  out <> a -> out <> b ->
  wp (Mat3.multiply out a b) h (fun _ h0 =>
    wp (Mat3.multiply a a b) h (fun r1 h1 =>
      wp (Mat3.multiply b a b) h (fun r2 h2 =>
        r1 = a /\ r2 = b /\
        h1 !! a = h0 !! out /\ h2 !! b = h0 !! out))) /\
  wp (Mat3.multiply out a a) h (fun _ h0 =>
    wp (Mat3.multiply a a a) h (fun r1 h1 =>
      r1 = a /\ h1 !! a = h0 !! out)).
Proof.
  intros Ha Hb Ho N1 N2. split; unfold Mat3.multiply; wp_run;
    repeat (split; [reflexivity |]); rewrite !lookup_insert_eq; auto.
Qed.

(** X11: [invert] reads its operand before it writes, so that inverting
    in place does what inverting into a separate matrix does: both calls
    return [null] and leave the heap as it is, or both return their
    output, which holds the same matrix in both cases. *)
Theorem invert_in_place
    (h : heap) (a out : ref) (A X : mat3) :
  h !! a = Some (OMat3 A) ->
  h !! out = Some (OMat3 X) ->
  out <> a ->
  wp (Mat3.invert out a) h (fun r0 h0 =>
    wp (Mat3.invert a a) h (fun r1 h1 =>
      (r0 = None /\ r1 = None /\ h0 = h /\ h1 = h) \/
      (r0 = Some out /\ r1 = Some a /\
       h0 !! a = Some (OMat3 A) /\ h1 !! a = h0 !! out))).
Proof.
  intros Ha Ho Hne.
  unfold Mat3.invert. wp_run.
  destruct (falsy _) eqn:Hf; wp_run; rewrite Hf; wp_run.
  - left. auto.
  - right. split; [reflexivity |]. split; [reflexivity |].
    split; [rewrite lookup_insert_ne by congruence; exact Ha |].
    rewrite !lookup_insert_eq. reflexivity.
Qed.


(** X13: [add] does not depend on the order of its operands, whether or
    not the output is one of them. *)
Theorem add_commutes
    (h : heap) (a b out : ref) (A B X : mat3) :
  h !! a = Some (OMat3 A) -> h !! b = Some (OMat3 B) ->
  h !! out = Some (OMat3 X) ->
  wp (Mat3.add out a b) h (fun r1 h1 =>
    wp (Mat3.add out b a) h (fun r2 h2 =>
      r1 = out /\ r2 = out /\ h1 = h2)).
Proof.
  intros Ha Hb Ho.
  unfold Mat3.add.
  destruct (decide (out = a)) as [E | N];
    [subst out; assert (X = A) by congruence; subst X |];
    (destruct (decide (a = b)) as [E1 | N1];
      [subst b; assert (B = A) by congruence; subst B |]);
    try (destruct (decide (out = b)) as [E2 | N2];
      [subst out; assert (X = B) by congruence; subst X |]);
    wp_run; (split; [reflexivity |]); (split; [reflexivity |]);
    do 2 f_equal; apply mat3_eq; apply Rplus_comm.
Qed.

(** X14: [multiplyScalarAndAdd(out, a, b, scale)] leaves in [out] what
    [multiplyScalar(t, b, scale)] followed by [add(out, a, t)] leaves. *)
Theorem multiplyScalarAndAdd_is_composition
    (h : heap) (a b out t : ref) (A B X T : mat3) (scale : R) :
  h !! a = Some (OMat3 A) -> h !! b = Some (OMat3 B) ->
  h !! out = Some (OMat3 X) -> h !! t = Some (OMat3 T) ->
  t <> a -> out <> a -> out <> b -> out <> t ->
  wp (Mat3.multiplyScalarAndAdd out a b scale) h (fun r1 h1 =>
    wp (Mat3.multiplyScalar t b scale;; Mat3.add out a t) h (fun r2 h2 =>
      r1 = out /\ r2 = out /\ h1 !! out = h2 !! out)).
Proof.
  intros Ha Hb Ho Ht N1 N2 N3 N4.
  unfold Mat3.multiplyScalarAndAdd, Mat3.multiplyScalar, Mat3.add.
  destruct (decide (t = b)) as [E | N];
    [subst t; assert (T = B) by congruence; subst T |]; wp_run;
    (split; [reflexivity |]); (split; [reflexivity |]);
    rewrite !lookup_insert_eq; reflexivity.
Qed.








Lemma num_lt_true a b : a < b -> num_lt a b = true.
Proof. intros Hab. unfold num_lt. destruct (Rlt_dec a b); [reflexivity | contradiction]. Qed.

Lemma num_lt_false a b : ~ a < b -> num_lt a b = false.
Proof. intros Hab. unfold num_lt. destruct (Rlt_dec a b); [contradiction | reflexivity]. Qed.

(** X24: the two degenerate cases of [fromViewUp].  When the squared
    length of [view] is below [EPSILON * EPSILON], [out] becomes the
    identity matrix and nothing else is written.  When it is not, but the
    normalised cross product of [up] (or of the default up direction, when
    [up] is omitted) and [view] is that short, [out] becomes the identity
    matrix as well, and only the first scratch vector of the closure is
    written besides. *)
Theorem fromViewUp_degenerate `{Externals}
    (h : heap) (env : Mat3.view_up_env) (out view : ref) (up : option ref)
    (X : mat3) (V U SX : Vec3.t) :
  h !! out = Some (OMat3 X) ->
  h !! view = Some (OVec3 V) ->
  h !! default (Mat3.default_up env) up = Some (OVec3 U) ->
  h !! Mat3.scratch_x env = Some (OVec3 SX) ->
  (sqrMag_of V < EPSILON * EPSILON ->
   wp (Mat3.fromViewUp env out view up) h (fun r h' =>
     r = out /\ h' = <[out := OMat3 identity_matrix]> h)) /\
  (~ sqrMag_of V < EPSILON * EPSILON ->
   sqrMag_of (normalize_of (cross_of U V)) < EPSILON * EPSILON ->
   wp (Mat3.fromViewUp env out view up) h (fun r h' =>
     r = out /\
     h' = <[out := OMat3 identity_matrix]>
            (<[Mat3.scratch_x env := OVec3 (normalize_of (cross_of U V))]> h))).
Proof.
  intros Ho Hv Hu Hx. destruct env as [du sx sy].
  cbn [Mat3.default_up Mat3.scratch_x Mat3.scratch_y] in *.
  assert (Hox : sx <> out) by congruence.
  split.
  - intros Hsmall.
    unfold Mat3.fromViewUp, vec3_sqrMag, readv, Mat3.identity.
    cbn [Mat3.default_up Mat3.scratch_x Mat3.scratch_y]. wp_run.
    rewrite vec3_eta, (num_lt_true _ _ Hsmall). wp_run.
    split; reflexivity.
  - intros Hbig Hsmall.
    unfold Mat3.fromViewUp, vec3_sqrMag, vec3_cross, vec3_normalize,
      readv, writev, Mat3.identity.
    cbn [Mat3.default_up Mat3.scratch_x Mat3.scratch_y]. wp_run.
    rewrite vec3_eta, (num_lt_false _ _ Hbig).
    destruct up as [u |]; cbn [default from_option Datatypes.id] in Hu |- *;
      wp_run; rewrite ?vec3_eta;
      match goal with
      | |- context [Vec3.mk (Vec3.x ?v) (Vec3.y ?v) (Vec3.z ?v)] =>
          rewrite (vec3_eta v)
      | _ => idtac
      end;
      rewrite ?vec3_eta, (num_lt_true _ _ Hsmall); wp_run;
      (split; [reflexivity |]); rewrite ?vec3_eta; reflexivity.
Qed.

(** ** Further properties of [line] *)

(** X25: [line.copy] writes the coordinates of the end points of [a] into
    the end points of [out]: the two lines keep their own [vec3] objects,
    [a] and its end points are left alone; and copying a line to itself
    changes nothing. *)
Theorem line_copy_keeps_objects
    (h : heap) (out a os oe ps pe : ref) (ty ty' : R)
    (OS OE S E : Vec3.t) :
  h !! out = Some (OLine (mk_line ty os oe)) ->
  h !! a = Some (OLine (mk_line ty' ps pe)) ->
  h !! os = Some (OVec3 OS) -> h !! oe = Some (OVec3 OE) ->
  h !! ps = Some (OVec3 S) -> h !! pe = Some (OVec3 E) ->
  os <> oe -> os <> ps -> os <> pe -> oe <> ps -> oe <> pe ->
  wp (Line.copy out a) h (fun r h' =>
    r = out /\ h' = <[oe := OVec3 E]> (<[os := OVec3 S]> h)) /\
  wp (Line.copy a a) h (fun r h' => r = a /\ h' = h).
Proof.
  intros Hout Ha Hos Hoe Hps Hpe N1 N2 N3 N4 N5.
  assert (os <> out /\ oe <> out /\ os <> a /\ oe <> a /\ ps <> a /\ pe <> a)
    as (? & ? & ? & ? & ? & ?) by (repeat split; congruence).
  split.
  - unfold Line.copy, vec3_copy. wp_run. rewrite !vec3_eta.
    split; reflexivity.
  - unfold Line.copy, vec3_copy.
    destruct (decide (ps = pe)) as [Eq | Ne];
      [subst pe; assert (E = S) by congruence; subst E |];
      wp_run; rewrite ?vec3_eta; (split; [reflexivity |]).
    + apply insert_id. exact Hps.
    + rewrite (insert_id h ps) by exact Hps. apply insert_id. exact Hpe.
Qed.

(** X26: [line.fromPoints] copies the two given points into the end points
    of the line, one after the other.  With points that are not end points
    of the line, the line goes from [start] to [end] and the two points are
    left alone.  With the line's own end points given in reverse order the
    end points are not swapped: both become the old end point. *)
Theorem fromPoints_copies_in_order
    (h : heap) (l ps pe p q : ref) (ty : R) (S E P Q : Vec3.t) :
  h !! l = Some (OLine (mk_line ty ps pe)) ->
  h !! ps = Some (OVec3 S) -> h !! pe = Some (OVec3 E) ->
  h !! p = Some (OVec3 P) -> h !! q = Some (OVec3 Q) ->
  ps <> pe -> p <> ps -> p <> pe -> q <> ps -> q <> pe ->
  wp (Line.fromPoints l p q) h (fun r h' =>
    r = l /\ h' = <[pe := OVec3 Q]> (<[ps := OVec3 P]> h)) /\
  wp (Line.fromPoints l pe ps) h (fun r h' =>
    r = l /\ h' = <[ps := OVec3 E]> h /\
    h' !! ps = Some (OVec3 E) /\ h' !! pe = Some (OVec3 E)).
Proof.
  intros Hl Hps Hpe Hp Hq N1 N2 N3 N4 N5.
  assert (ps <> l /\ pe <> l) as (? & ?) by (split; congruence).
  split.
  - unfold Line.fromPoints, vec3_copy.
    destruct (decide (p = q)) as [Eq | Ne];
      [subst q; assert (Q = P) by congruence; subst Q |];
      wp_run; rewrite !vec3_eta; split; reflexivity.
  - unfold Line.fromPoints, vec3_copy. wp_run. rewrite !vec3_eta.
    split; [reflexivity |]. split; [| split].
    + apply insert_id. rewrite lookup_insert_ne by congruence. exact Hpe.
    + rewrite lookup_insert_ne, lookup_insert_eq by congruence. reflexivity.
    + apply lookup_insert_eq.
Qed.


(** ** The further properties at concrete inputs *)

#[local] Existing Instance example_externals.




Lemma transpose_of_product_witness :
  wp (Mat3.multiply 5 1 2;; Mat3.transpose 5 5) matrix_heap
     (λ (r1 : ref) (h1 : heap),
        wp (Mat3.transpose 3 1;; Mat3.transpose 4 2;; Mat3.multiply 6 4 3)
          matrix_heap
          (λ (r2 : ref) (h2 : heap),
             r1 = 5%positive
             ∧ r2 = 6%positive ∧ h1 !! 5%positive = h2 !! 6%positive)).
Proof.
  apply (transpose_of_product matrix_heap 1%positive 2%positive 3%positive 4%positive 5%positive 6%positive example_matrix singular_matrix identity_matrix identity_matrix identity_matrix identity_matrix);
    [reflexivity | reflexivity | reflexivity | reflexivity | reflexivity | reflexivity | by apply (bool_decide_unpack _)].
Defined.


Lemma multiply_in_place_witness :
  wp (Mat3.multiply 3 1 2) matrix_heap
     (λ (_ : ref) (h0 : heap),
        wp (Mat3.multiply 1 1 2) matrix_heap
          (λ (r1 : ref) (h1 : heap),
             wp (Mat3.multiply 2 1 2) matrix_heap
               (λ (r2 : ref) (h2 : heap),
                  r1 = 1%positive
                  ∧ r2 = 2%positive
                    ∧ h1 !! 1%positive = h0 !! 3%positive
                      ∧ h2 !! 2%positive = h0 !! 3%positive)))
   ∧ wp (Mat3.multiply 3 1 1) matrix_heap
       (λ (_ : ref) (h0 : heap),
          wp (Mat3.multiply 1 1 1) matrix_heap
            (λ (r1 : ref) (h1 : heap),
               r1 = 1%positive ∧ h1 !! 1%positive = h0 !! 3%positive)).
Proof.
  apply (multiply_in_place matrix_heap 1%positive 2%positive 3%positive example_matrix singular_matrix identity_matrix);
    [reflexivity | reflexivity | reflexivity | discriminate | discriminate].
Defined.

Lemma invert_in_place_witness :
  wp (Mat3.invert 3 1) matrix_heap
     (λ (r0 : option ref) (h0 : heap),
        wp (Mat3.invert 1 1) matrix_heap
          (λ (r1 : option ref) (h1 : heap),
             r0 = None ∧ r1 = None ∧ h0 = matrix_heap ∧ h1 = matrix_heap
             ∨ r0 = Some 3%positive
               ∧ r1 = Some 1%positive
                 ∧ h0 !! 1%positive = Some (OMat3 example_matrix)
                   ∧ h1 !! 1%positive = h0 !! 3%positive))
   ∧ wp (Mat3.invert 3 2) matrix_heap
       (λ (r0 : option ref) (h0 : heap),
          wp (Mat3.invert 2 2) matrix_heap
            (λ (r1 : option ref) (h1 : heap),
               r0 = None ∧ r1 = None ∧ h0 = matrix_heap ∧ h1 = matrix_heap
               ∨ r0 = Some 3%positive
                 ∧ r1 = Some 2%positive
                   ∧ h0 !! 2%positive = Some (OMat3 singular_matrix)
                     ∧ h1 !! 2%positive = h0 !! 3%positive)).
Proof.
  split;
    [apply (invert_in_place matrix_heap 1%positive 3%positive example_matrix identity_matrix)
    | apply (invert_in_place matrix_heap 2%positive 3%positive singular_matrix identity_matrix)];
    first [reflexivity | discriminate].
Defined.


Lemma add_commutes_witness :
  wp (Mat3.add 3 1 2) matrix_heap
     (λ (r1 : ref) (h1 : heap),
        wp (Mat3.add 3 2 1) matrix_heap
          (λ (r2 : ref) (h2 : heap),
             r1 = 3%positive ∧ r2 = 3%positive ∧ h1 = h2)).
Proof.
  apply (add_commutes matrix_heap 1%positive 2%positive 3%positive example_matrix singular_matrix identity_matrix);
    [reflexivity | reflexivity | reflexivity].
Defined.

Lemma multiplyScalarAndAdd_is_composition_witness :
  wp (Mat3.multiplyScalarAndAdd 3 1 2 2) matrix_heap
     (λ (r1 : ref) (h1 : heap),
        wp (Mat3.multiplyScalar 4 2 2;; Mat3.add 3 1 4) matrix_heap
          (λ (r2 : ref) (h2 : heap),
             r1 = 3%positive
             ∧ r2 = 3%positive ∧ h1 !! 3%positive = h2 !! 3%positive)).
Proof.
  apply (multiplyScalarAndAdd_is_composition matrix_heap 1%positive 2%positive 3%positive 4%positive example_matrix singular_matrix identity_matrix identity_matrix 2);
    [reflexivity | reflexivity | reflexivity | reflexivity | discriminate | discriminate | discriminate | discriminate].
Defined.




Lemma fromViewUp_degenerate_witness :
  (sqrMag_of {| Vec3.x := 0; Vec3.y := 0; Vec3.z := 0 |} < EPSILON * EPSILON
    → wp (Mat3.fromViewUp example_env 9 4 None) point_heap
        (λ (r : ref) (h' : heap),
           r = 9%positive
           ∧ h' = <[9%positive:=OMat3 identity_matrix]> point_heap))
   ∧ (¬ sqrMag_of {| Vec3.x := 0; Vec3.y := 0; Vec3.z := 0 |} <
        EPSILON * EPSILON
      → sqrMag_of
          (normalize_of
             (cross_of {| Vec3.x := 0; Vec3.y := 1; Vec3.z := 0 |}
                {| Vec3.x := 0; Vec3.y := 0; Vec3.z := 0 |})) <
        EPSILON * EPSILON
        → wp (Mat3.fromViewUp example_env 9 4 None) point_heap
            (λ (r : ref) (h' : heap),
               r = 9%positive
               ∧ h' =
                 <[9%positive:=OMat3 identity_matrix]>
                   (<[Mat3.scratch_x example_env:=OVec3
                                                  (normalize_of
                                                  (cross_of
                                                  {|
                                                  Vec3.x := 0;
                                                  Vec3.y := 1;
                                                  Vec3.z := 0
                                                  |}
                                                  {|
                                                  Vec3.x := 0;
                                                  Vec3.y := 0;
                                                  Vec3.z := 0
                                                  |}))]>
                      point_heap))).
Proof.
  apply (@fromViewUp_degenerate example_externals point_heap example_env 9%positive 4%positive None example_matrix (Vec3.mk 0 0 0) (Vec3.mk 0 1 0) (Vec3.mk 0 0 0));
    [reflexivity | reflexivity | reflexivity | reflexivity].
Defined.

Lemma line_copy_keeps_objects_witness :
  wp (Line.copy 7 8) point_heap
     (λ (r : ref) (h' : heap),
        r = 7%positive
        ∧ h' =
          <[5%positive:=OVec3 {| Vec3.x := 1; Vec3.y := 1; Vec3.z := 1 |}]>
            (<[4%positive:=OVec3 {| Vec3.x := 1; Vec3.y := 2; Vec3.z := 3 |}]>
               point_heap))
   ∧ wp (Line.copy 8 8) point_heap
       (λ (r : ref) (h' : heap), r = 8%positive ∧ h' = point_heap).
Proof.
  apply (line_copy_keeps_objects point_heap 7%positive 8%positive 4%positive 5%positive 6%positive 10%positive 2 2 (Vec3.mk 0 0 0) (Vec3.mk 3 4 0) (Vec3.mk 1 2 3) (Vec3.mk 1 1 1));
    [reflexivity | reflexivity | reflexivity | reflexivity | reflexivity | reflexivity | discriminate | discriminate | discriminate | discriminate | discriminate].
Defined.

Lemma fromPoints_copies_in_order_witness :
  wp (Line.fromPoints 7 1 6) point_heap
     (λ (r : ref) (h' : heap),
        r = 7%positive
        ∧ h' =
          <[5%positive:=OVec3 {| Vec3.x := 1; Vec3.y := 2; Vec3.z := 3 |}]>
            (<[4%positive:=OVec3 {| Vec3.x := 0; Vec3.y := 1; Vec3.z := 0 |}]>
               point_heap))
   ∧ wp (Line.fromPoints 7 5 4) point_heap
       (λ (r : ref) (h' : heap),
          r = 7%positive
          ∧ h' =
            <[4%positive:=OVec3 {| Vec3.x := 3; Vec3.y := 4; Vec3.z := 0 |}]>
              point_heap
            ∧ h' !! 4%positive =
              Some (OVec3 {| Vec3.x := 3; Vec3.y := 4; Vec3.z := 0 |})
              ∧ h' !! 5%positive =
                Some (OVec3 {| Vec3.x := 3; Vec3.y := 4; Vec3.z := 0 |})).
Proof.
  apply (fromPoints_copies_in_order point_heap 7%positive 4%positive 5%positive 1%positive 6%positive 2 (Vec3.mk 0 0 0) (Vec3.mk 3 4 0) (Vec3.mk 0 1 0) (Vec3.mk 1 2 3));
    [reflexivity | reflexivity | reflexivity | reflexivity | reflexivity | discriminate | discriminate | discriminate | discriminate | discriminate].
Defined.

